(** * Tea Shop API: token authentication and the tea record lifecycle

    A shallow embedding of [afastapi.py]: the token helper
    [generate_jwt_token], the dependency [get_current_user], the login
    handler and the four tea handlers, together with models of the three
    collaborators the handlers call into:

    - the [jwt] module (PyJWT): compact tokens with an HS256 tag;
    - a SQLModel session over the SQLite file [database.db];
    - FastAPI's translation of handler outcomes into HTTP responses.

    Conventions.
    - Times are POSIX timestamps in whole seconds, the unit of the [exp]
      claim.  [datetime.utcnow()] is the explicit argument [now].
    - Python exceptions are values of [exn]; a computation returns
      [inl e] when it raises [e].
    - [print] calls only write to the console and are left out. *)

From Stdlib Require Import ZArith List Ascii String Bool Lia DecimalString Sorted.
Import ListNotations.
Local Open Scope Z_scope.
Local Open Scope string_scope.

(** ** Exceptions *)

Definition Headers : Type := list (string * string).

(** The exception classes the handlers distinguish.  In PyJWT
    [ExpiredSignatureError] derives from [InvalidTokenError]; the order of
    the [except] clauses decides which handler runs, so two constructors
    are enough.  [InvalidTokenError] stands for every other subclass
    ([DecodeError], [InvalidSignatureError], [InvalidAlgorithmError]).
    [PyException cls msg] is any other Python exception. *)
Inductive exn : Type :=
| ExpiredSignatureError (msg : string)
| InvalidTokenError (msg : string)
| HTTPException (status_code : Z) (detail : string) (headers : Headers)
| PyException (cls : string) (msg : string).

(** [str(int)] *)
Definition str_int (z : Z) : string := NilZero.string_of_int (Z.to_int z).

(** [str(e)]; Starlette's [HTTPException.__str__] is
    [f"{status_code}: {detail}"]. *)
Definition str (e : exn) : string :=
  match e with
  | ExpiredSignatureError msg => msg
  | InvalidTokenError msg => msg
  | HTTPException status_code detail _ => str_int status_code ++ ": " ++ detail
  | PyException _ msg => msg
  end.

Definition HTTP_401_UNAUTHORIZED : Z := 401.

Definition WWW_Authenticate_Bearer : Headers := [("WWW-Authenticate", "Bearer")].

(** ** Configuration (lines 22-24) *)

Definition JWT_SECRET_KEY : string := "your-secret-key".
Definition JWT_ALGORITHM : string := "HS256".
Definition JWT_EXPIRATION_MINUTES : Z := 30.

(** [timedelta(minutes=m)] in seconds *)
Definition timedelta_minutes (m : Z) : Z := m * 60.

(** ** The [jwt] module *)

Module jwt.

(** The claims the service writes and reads. [None] is an absent key. *)
Record Payload : Type := { sub : option string; exp : option Z }.

(** What the tag is computed over: the header's [alg] and the payload
    (the two base64 segments, kept structured). *)
Definition SigningInput : Type := (string * Payload)%type.

(** A bearer string as PyJWT loads it.  [Compact]: the string splits
    into three segments that decode to a header with [alg], a payload and
    a tag.  [Opaque raw why]: the string [raw] does not load; when it has
    the two dots that make three segments, [why] is the text of the
    [DecodeError] the first undecodable segment gives ("Invalid header
    padding", "Invalid payload string: ...", and so on). *)
Inductive Token : Type :=
| Compact (alg : string) (claims : Payload) (signature : string)
| Opaque (raw : string) (why : string).

(** The number of dots in a bearer string. *)
Fixpoint dots (raw : string) : nat :=
  match raw with
  | EmptyString => O
  | String c rest =>
      if Ascii.eqb c "."%char then S (dots rest) else dots rest
  end.

(** The text of the [DecodeError] for a string that does not load: the
    split into segments is tried first and needs two dots. *)
Definition load_error (raw why : string) : string :=
  if (dots raw <? 2)%nat then "Not enough segments" else why.

Section Algorithm.

(** The keyed hash behind HS256, left abstract: [HS256 key input] is
    the tag, or the exception the crypto backend raised. *)
Variable HS256 : string -> SigningInput -> exn + string.

(** [jwt.encode(payload, key, algorithm=...)] *)
Definition encode (payload : Payload) (key algorithm : string) : exn + Token :=
  if algorithm =? "HS256" then
    match HS256 key (algorithm, payload) with
    | inl e => inl e
    | inr tag => inr (Compact algorithm payload tag)
    end
  else inl (PyException "NotImplementedError" "Algorithm not supported").

(** [jwt.decode(token, key, algorithms=[...])] read at time [now].
    PyJWT checks in this order: the segments and their decoding, the
    header's [alg]
    against [algorithms], the tag (recomputed and compared), and only
    then the registered claims; [exp] is checked when present and has
    passed when [exp <= now]. *)
Definition decode (now : Z) (token : Token) (key : string)
    (algorithms : list string) : exn + Payload :=
  match token with
  | Opaque raw why => inl (InvalidTokenError (load_error raw why))
  | Compact alg claims signature =>
      if negb (existsb (String.eqb alg) algorithms) then
        inl (InvalidTokenError "The specified alg value is not allowed")
      else if negb (alg =? "HS256") then
        inl (InvalidTokenError "Algorithm not supported")
      else
        match HS256 key (alg, claims) with
        | inl e => inl e
        | inr tag =>
            if negb (tag =? signature) then
              inl (InvalidTokenError "Signature verification failed")
            else
              match exp claims with
              | Some t =>
                  if (t <=? now)%Z
                  then inl (ExpiredSignatureError "Signature has expired")
                  else inr claims
              | None => inr claims
              end
        end
  end.

End Algorithm.

End jwt.

(** ** Tables (lines 48-69) *)

Module User.
Record t : Type := mk { id : Z; username : string; password : string }.
End User.
Abbreviation User := User.t.

Module Tea.
Record t : Type := mk { id : Z; name : string; origin : string }.
End Tea.
Abbreviation Tea := Tea.t.

Module TeaCreate.
Record t : Type := mk { name : string; origin : string }.
End TeaCreate.
Abbreviation TeaCreate := TeaCreate.t.

Record TokenResponse : Type :=
  { access_token : jwt.Token; token_type : string }.

(** ** The SQLite file behind [engine] *)

(** Both tables declare [id: Optional[int] = Field(default=None,
    primary_key=True)]: an INTEGER PRIMARY KEY column without
    AUTOINCREMENT, which SQLite makes an alias of the rowid.  A table is
    the list of its rows in rowid order, the order of a plain
    [select]. *)
Record Database : Type :=
  { user_table : list User; tea_table : list Tea }.

(** The file is reachable and has contents, or opening it fails. *)
Inductive Engine : Type :=
| Up (db : Database)
| Down (why : string).

Module sqlite.

Definition MAX_ROWID : Z := 9223372036854775807.
Definition MIN_ROWID : Z := -9223372036854775808.

(** An integer the driver can bind to an INTEGER column: signed 64 bits. *)
Definition is_rowid (i : Z) : bool := (MIN_ROWID <=? i)%Z && (i <=? MAX_ROWID)%Z.

Fixpoint largest (ids : list Z) : option Z :=
  match ids with
  | [] => None
  | i :: rest =>
      match largest rest with
      | None => Some i
      | Some m => Some (Z.max i m)
      end
  end.

(** The rowid of a row inserted with [id] NULL: 1 in an empty table,
    otherwise one more than the largest rowid in the table.  When the
    table holds the largest 64-bit rowid SQLite instead tries unused
    rowids at random; the one it settles on is not a function of the
    table, so that case is left out: no id is given here and the insert
    raises.  Every statement on what a create returns says that the
    table has room. *)
Definition new_rowid (ids : list Z) : option Z :=
  match largest ids with
  | None => Some 1
  | Some m => if (m <? MAX_ROWID)%Z then Some (m + 1) else None
  end.

(** [UPDATE tea SET name=?, origin=? WHERE tea.id = ?] *)
Definition update_tea_row (row : Tea) (rows : list Tea) : list Tea :=
  map (fun r => if (Tea.id r =? Tea.id row)%Z then row else r) rows.

(** [DELETE FROM tea WHERE tea.id = ?] *)
Definition delete_tea_row (i : Z) (rows : list Tea) : list Tea :=
  filter (fun r => negb (Tea.id r =? i)%Z) rows.

(** [SELECT ... FROM tea WHERE tea.id = ?]: the row stored under [i]. *)
Definition get_tea (i : Z) (rows : list Tea) : option Tea :=
  find (fun r => (Tea.id r =? i)%Z) rows.

(** [session.get(Tea, i)].  The driver binds [i] to the statement and
    raises [OverflowError] when it does not fit 64 bits; otherwise the
    row or [None] comes back.  A stored id is a rowid and fits, so an id
    that is found is served and the range decides for the others. *)
Definition get (i : Z) (rows : list Tea) : exn + option Tea :=
  match get_tea i rows with
  | Some row => inr (Some row)
  | None =>
      if is_rowid i then inr None
      else inl (PyException "OverflowError"
                  "Python int too large to convert to SQLite INTEGER")
  end.

(** [select(User).where(User.username == name)).first()] *)
Definition first_user_where_username (name : string) (rows : list User)
  : option User :=
  find (fun u => User.username u =? name) rows.

End sqlite.

(** ** Handler computations: state and exceptions *)

Definition M (A : Type) : Type := Engine -> (exn + A) * Engine.

Definition ret {A} (a : A) : M A := fun eng => (inr a, eng).

Definition raise {A} (e : exn) : M A := fun eng => (inl e, eng).

Definition bind {A B} (m : M A) (k : A -> M B) : M B :=
  fun eng =>
    match m eng with
    | (inl e, eng') => (inl e, eng')
    | (inr a, eng') => k a eng'
    end.

(** [try: body  except ... as e: handler e] *)
Definition try_except {A} (body : M A) (handler : exn -> M A) : M A :=
  fun eng =>
    match body eng with
    | (inl e, eng') => handler e eng'
    | (inr a, eng') => (inr a, eng')
    end.

(** A library call that raises or returns without touching the store. *)
Definition call {A} (r : exn + A) : M A := fun eng => (r, eng).

Notation "x <- m ;; k" := (bind m (fun x => k))
  (at level 61, m at next level, right associativity).
Notation "m ;;; k" := (bind m (fun _ => k))
  (at level 61, right associativity).

(** [with Session(engine) as session:] followed by the first statement
    that reaches the file.  When the file cannot be opened SQLAlchemy
    raises [OperationalError]. *)
Definition Session : M Database :=
  fun eng =>
    match eng with
    | Up db => (inr db, eng)
    | Down why => (inl (PyException "OperationalError" why), eng)
    end.

(** [session.commit()] of the rows the session holds. *)
Definition commit (db : Database) : M unit :=
  fun eng =>
    match eng with
    | Up _ => (inr tt, Up db)
    | Down why => (inl (PyException "OperationalError" why), eng)
    end.

(** [session.refresh(row)]: the row is read back by primary key. *)
Definition refresh (i : Z) : M Tea :=
  db <- Session ;;
  match sqlite.get_tea i (tea_table db) with
  | Some row => ret row
  | None => raise (PyException "InvalidRequestError" "Could not refresh instance")
  end.

(** [{"message": ...}] *)
Record Message : Type := { message : string }.

(** ** The service (lines 27-232) *)

Section Service.

Variable HS256 : string -> jwt.SigningInput -> exn + string.

(** [generate_jwt_token(data)] called at time [now] (lines 27-40) *)
Definition generate_jwt_token (now : Z) (data : jwt.Payload) : M jwt.Token :=
  let to_encode := data in
  let expire := now + timedelta_minutes JWT_EXPIRATION_MINUTES in
  let to_encode := {| jwt.sub := jwt.sub to_encode; jwt.exp := Some expire |} in
  try_except
    (encoded_jwt <- call (jwt.encode HS256 to_encode JWT_SECRET_KEY JWT_ALGORITHM) ;;
     ret encoded_jwt)
    (fun e => raise e).

(** [on_startup()] (lines 73-84): seed the default account when the
    user table is empty. *)
Definition on_startup : M unit :=
  session <- Session ;;
  match user_table session with
  | _ :: _ => ret tt
  | [] =>
      match sqlite.new_rowid (map User.id (user_table session)) with
      | None => raise (PyException "OperationalError" "database or disk is full")
      | Some i =>
          let default_user := User.mk i "admin" "password" in
          commit {| user_table := user_table session ++ [default_user]%list;
                    tea_table := tea_table session |}
      end
  end.

(** The [try] block of [get_current_user] (lines 93-114) *)
Definition get_current_user_try (now : Z) (credentials : jwt.Token) : M User :=
  payload <- call (jwt.decode HS256 now credentials JWT_SECRET_KEY [JWT_ALGORITHM]) ;;
  match jwt.sub payload with
  | None =>
      raise (HTTPException HTTP_401_UNAUTHORIZED
               "Invalid token: no username found" WWW_Authenticate_Bearer)
  | Some username =>
      session <- Session ;;
      match sqlite.first_user_where_username username (user_table session) with
      | None =>
          raise (HTTPException HTTP_401_UNAUTHORIZED
                   "User not found" WWW_Authenticate_Bearer)
      | Some user => ret user
      end
  end.

(** The [except] clauses of [get_current_user] (lines 115-134), tried
    in the order they are written. *)
Definition get_current_user_except (e : exn) : M User :=
  match e with
  | ExpiredSignatureError _ =>
      raise (HTTPException HTTP_401_UNAUTHORIZED
               "Token has expired" WWW_Authenticate_Bearer)
  | InvalidTokenError _ =>
      raise (HTTPException HTTP_401_UNAUTHORIZED
               ("Invalid token: " ++ str e) WWW_Authenticate_Bearer)
  | _ =>
      raise (HTTPException HTTP_401_UNAUTHORIZED
               ("Authentication error: " ++ str e) WWW_Authenticate_Bearer)
  end.

(** [get_current_user(credentials)] (lines 87-134); [credentials] is
    the bearer string [HTTPBearer] took from the Authorization header. *)
Definition get_current_user (now : Z) (credentials : jwt.Token) : M User :=
  try_except (get_current_user_try now credentials) get_current_user_except.

(** [login_for_access_token(username, password)] (lines 142-164) *)
Definition login_for_access_token (now : Z) (username password : string)
  : M TokenResponse :=
  try_except
    (session <- Session ;;
     match sqlite.first_user_where_username username (user_table session) with
     | None =>
         raise (HTTPException HTTP_401_UNAUTHORIZED
                  "Incorrect username or password" WWW_Authenticate_Bearer)
     | Some user =>
         if negb (User.password user =? password) then
           raise (HTTPException HTTP_401_UNAUTHORIZED
                    "Incorrect username or password" WWW_Authenticate_Bearer)
         else
           let token_data :=
             {| jwt.sub := Some (User.username user); jwt.exp := None |} in
           access_token <- generate_jwt_token now token_data ;;
           ret {| access_token := access_token; token_type := "bearer" |}
     end)
    (fun e => raise e).

(** [root()] (lines 172-174) *)
Definition root : M Message := ret {| message := "WELCOME TO THE TEA SHOP!" |}.

(** [get_teas()] (lines 181-185) *)
Definition get_teas : M (list Tea) :=
  session <- Session ;;
  ret (tea_table session).

(** [create_tea(tea, current_user)] (lines 192-199); the dependency
    [get_current_user] runs before the body. *)
Definition create_tea (now : Z) (tea : TeaCreate) (credentials : jwt.Token)
  : M Tea :=
  current_user <- get_current_user now credentials ;;
  session <- Session ;;
  match sqlite.new_rowid (map Tea.id (tea_table session)) with
  | None => raise (PyException "OperationalError" "database or disk is full")
  | Some i =>
      let db_tea := Tea.mk i (TeaCreate.name tea) (TeaCreate.origin tea) in
      commit {| user_table := user_table session;
                tea_table := tea_table session ++ [db_tea]%list |} ;;;
      refresh i
  end.

(** [update_tea(tea_id, tea_update, current_user)] (lines 206-217) *)
Definition update_tea (now : Z) (tea_id : Z) (tea_update : TeaCreate)
    (credentials : jwt.Token) : M Tea :=
  current_user <- get_current_user now credentials ;;
  session <- Session ;;
  found <- call (sqlite.get tea_id (tea_table session)) ;;
  match found with
  | None => raise (HTTPException 404 "Tea not found" [])
  | Some tea =>
      let tea := Tea.mk (Tea.id tea) (TeaCreate.name tea_update)
                   (TeaCreate.origin tea_update) in
      commit {| user_table := user_table session;
                tea_table := sqlite.update_tea_row tea (tea_table session) |} ;;;
      refresh (Tea.id tea)
  end.

(** [delete_tea(tea_id, current_user)] (lines 224-232) *)
Definition delete_tea (now : Z) (tea_id : Z) (credentials : jwt.Token)
  : M Message :=
  current_user <- get_current_user now credentials ;;
  session <- Session ;;
  found <- call (sqlite.get tea_id (tea_table session)) ;;
  match found with
  | None => raise (HTTPException 404 "Tea not found" [])
  | Some tea =>
      commit {| user_table := user_table session;
                tea_table := sqlite.delete_tea_row (Tea.id tea) (tea_table session) |} ;;;
      ret {| message := "Tea with id " ++ str_int tea_id ++ " deleted" |}
  end.

End Service.

(** ** What the client receives *)

(** FastAPI answers a returned value with 200 and the value, an
    [HTTPException] with its status and [{"detail": detail}], and any
    other exception with 500 and the fixed text below. *)
Inductive Response (A : Type) : Type :=
| Ok200 (content : A)
| Error (status : Z) (detail : string) (headers : Headers).
Arguments Ok200 {A} content.
Arguments Error {A} status detail headers.

Definition respond {A} (outcome : exn + A) : Response A :=
  match outcome with
  | inr a => Ok200 a
  | inl (HTTPException status_code detail headers) => Error status_code detail headers
  | inl _ => Error 500 "Internal Server Error" []
  end.

(** ** Sequences of mutating requests *)

Inductive Request : Type :=
| Create (tea : TeaCreate)
| Update (tea_id : Z) (tea_update : TeaCreate)
| Delete (tea_id : Z).

(** One mutating request as it arrives: the time, the bearer token and
    the operation. *)
Record Call : Type := { at_time : Z; bearer : jwt.Token; request : Request }.

Section Serving.

Variable HS256 : string -> jwt.SigningInput -> exn + string.

(** The store after one call, whatever its outcome. *)
Definition serve (eng : Engine) (c : Call) : Engine :=
  match request c with
  | Create tea => snd (create_tea HS256 (at_time c) tea (bearer c) eng)
  | Update tea_id tea_update =>
      snd (update_tea HS256 (at_time c) tea_id tea_update (bearer c) eng)
  | Delete tea_id => snd (delete_tea HS256 (at_time c) tea_id (bearer c) eng)
  end.

Definition serve_all (eng : Engine) (calls : list Call) : Engine :=
  fold_left serve calls eng.



End Serving.

Definition is_create (c : Call) : bool :=
  match request c with Create _ => true | _ => false end.

(** ** Vocabulary of the statements *)

(** The ids present in the tea table. *)
Definition tea_ids (db : Database) : list Z := map Tea.id (tea_table db).

(** The tea table lists its records by strictly increasing id, so no two
    records share an id. *)
Definition rowid_ordered (db : Database) : Prop :=
  StronglySorted Z.lt (tea_ids db).

(** The tea table holds rowids: every id in it fits signed 64 bits. *)
Definition holds_rowids (db : Database) : Prop :=
  Forall (fun i => sqlite.is_rowid i = true) (tea_ids db).

(** The expiry of [claims], when there is one, lies after [now]. *)
Definition unexpired (now : Z) (claims : jwt.Payload) : Prop :=
  match jwt.exp claims with
  | Some t => now < t
  | None => True
  end.

(** ** Sample instances used in the examples *)

(** A transparent stand-in for the keyed hash: the tag spells out the key
    and the signed fields. *)
Definition demo_HS256 (key : string) (input : jwt.SigningInput) : exn + string :=
  let claims := snd input in
  inr (key ++ "|" ++ fst input
       ++ "|" ++ match jwt.sub claims with Some s => s | None => "" end
       ++ "|" ++ match jwt.exp claims with Some t => str_int t | None => "" end).

(** A crypto backend that raises on every call. *)
Definition failing_HS256 (key : string) (input : jwt.SigningInput) : exn + string :=
  inl (PyException "RuntimeError" "digest backend unavailable").

Definition empty_db : Database := {| user_table := []; tea_table := [] |}.

(** The database after the first start: the seeded account, no teas. *)
Definition seeded_db : Database :=
  {| user_table := [User.mk 1 "admin" "password"]; tea_table := [] |}.

(** A token for [admin] signed with the service key, expiring at
    [expiry]. *)
Definition admin_token (expiry : Z) : jwt.Token :=
  let claims := {| jwt.sub := Some "admin"; jwt.exp := Some expiry |} in
  jwt.Compact "HS256" claims
    ("your-secret-key|HS256|admin|" ++ str_int expiry).

(** A database with the seeded account and three teas. *)
Definition stocked_db : Database :=
  {| user_table := [User.mk 1 "admin" "password"];
     tea_table := [Tea.mk 1 "Earl Grey" "England";
                   Tea.mk 2 "Assam" "India";
                   Tea.mk 5 "Sencha" "Japan"] |}.

(** * Properties *)

(** Unfolding a handler down to its case analysis. *)
Ltac run_handler :=
  unfold get_current_user, get_current_user_try, get_current_user_except,
    login_for_access_token, generate_jwt_token, try_except, bind, call,
    raise, ret, Session; simpl.

(** Stepping through the body of a tea handler once [get_current_user] has
    answered. *)
Ltac run_body :=
  unfold bind, Session, commit, refresh, ret, raise, call, sqlite.get;
  cbn beta iota zeta;
  cbn [user_table tea_table fst snd].


(** ** Rows and rowids *)

Lemma largest_bounds (ids : list Z) (m : Z) :
  sqlite.largest ids = Some m -> Forall (fun i => i <= m) ids.
Proof.
  revert m. induction ids as [|i rest IH]; intros m H; simpl in H.
  - discriminate.
  - destruct (sqlite.largest rest) as [m'|] eqn:E.
    + injection H as <-. constructor; [lia|].
      specialize (IH m' eq_refl).
      eapply Forall_impl; [|exact IH]. simpl. intros. lia.
    + injection H as <-. destruct rest; [constructor; [lia|constructor]|].
      simpl in E. destruct (sqlite.largest rest); discriminate.
Qed.

Lemma largest_in (ids : list Z) (m : Z) :
  sqlite.largest ids = Some m -> In m ids.
Proof.
  revert m. induction ids as [|i rest IH]; intros m H; simpl in H.
  - discriminate.
  - destruct (sqlite.largest rest) as [m'|] eqn:E.
    + injection H as <-. specialize (IH m' eq_refl).
      destruct (Z.max_spec i m') as [[_ ->]|[_ ->]]; simpl; auto.
    + injection H as <-. now left.
Qed.


Lemma is_rowid_spec (i : Z) :
  sqlite.is_rowid i = true <-> sqlite.MIN_ROWID <= i <= sqlite.MAX_ROWID.
Proof.
  unfold sqlite.is_rowid. rewrite andb_true_iff, !Z.leb_le. tauto.
Qed.



Lemma new_rowid_above (ids : list Z) (i : Z) :
  sqlite.new_rowid ids = Some i -> Forall (fun j => j < i) ids.
Proof.
  unfold sqlite.new_rowid. intros H.
  destruct (sqlite.largest ids) as [m|] eqn:E.
  - destruct (m <? sqlite.MAX_ROWID)%Z; [|discriminate].
    injection H as <-. apply largest_bounds in E.
    eapply Forall_impl; [|exact E]. simpl. intros. lia.
  - destruct ids; [constructor|].
    simpl in E. destruct (sqlite.largest ids); discriminate.
Qed.

Lemma new_rowid_unused (ids : list Z) (i : Z) :
  sqlite.new_rowid ids = Some i -> ~ In i ids.
Proof.
  intros H Hin. apply new_rowid_above in H.
  rewrite Forall_forall in H. specialize (H i Hin). lia.
Qed.

Lemma new_rowid_defined (ids : list Z) :
  (forall m, sqlite.largest ids = Some m -> m < sqlite.MAX_ROWID) ->
  exists i, sqlite.new_rowid ids = Some i.
Proof.
  unfold sqlite.new_rowid. intros H.
  destruct (sqlite.largest ids) as [m|]; [|eauto].
  specialize (H m eq_refl). apply Z.ltb_lt in H. rewrite H. eauto.
Qed.


Lemma get_tea_present (i : Z) (rows : list Tea) :
  In i (map Tea.id rows) ->
  exists row, sqlite.get_tea i rows = Some row /\ Tea.id row = i.
Proof.
  unfold sqlite.get_tea. induction rows as [|r rows IH]; simpl; [tauto|].
  intros H. destruct (Z.eqb_spec (Tea.id r) i) as [E|Hne].
  - eauto.
  - destruct H as [H|H]; [contradiction|]. auto.
Qed.

Lemma get_tea_id (i : Z) (rows : list Tea) (row : Tea) :
  sqlite.get_tea i rows = Some row -> Tea.id row = i /\ In row rows.
Proof.
  unfold sqlite.get_tea. intros H. apply find_some in H.
  destruct H as [Hin H]. apply Z.eqb_eq in H. auto.
Qed.

Lemma get_tea_appended (rows : list Tea) (row : Tea) :
  ~ In (Tea.id row) (map Tea.id rows) ->
  sqlite.get_tea (Tea.id row) (rows ++ [row])%list = Some row.
Proof.
  unfold sqlite.get_tea. induction rows as [|r rows IH]; simpl; intros H.
  - now rewrite Z.eqb_refl.
  - destruct (Z.eqb_spec (Tea.id r) (Tea.id row)) as [E|Hne].
    + exfalso. apply H. now left.
    + apply IH. tauto.
Qed.

Lemma update_tea_row_ids (row : Tea) (rows : list Tea) :
  map Tea.id (sqlite.update_tea_row row rows) = map Tea.id rows.
Proof.
  unfold sqlite.update_tea_row. induction rows as [|r rows IH]; simpl; [reflexivity|].
  rewrite IH. destruct (Z.eqb_spec (Tea.id r) (Tea.id row)) as [E|Hne]; congruence.
Qed.

Lemma get_tea_updated (row : Tea) (rows : list Tea) :
  In (Tea.id row) (map Tea.id rows) ->
  sqlite.get_tea (Tea.id row) (sqlite.update_tea_row row rows) = Some row.
Proof.
  unfold sqlite.get_tea, sqlite.update_tea_row.
  induction rows as [|r rows IH]; simpl; [tauto|]. intros H.
  destruct (Z.eqb_spec (Tea.id r) (Tea.id row)) as [E|Hne]; simpl.
  - now rewrite Z.eqb_refl.
  - apply Z.eqb_neq in Hne. rewrite Hne. apply IH.
    destruct H as [H|H]; [|exact H]. apply Z.eqb_neq in Hne. contradiction.
Qed.

Lemma get_tea_update_other (row : Tea) (rows : list Tea) (j : Z) :
  j <> Tea.id row ->
  sqlite.get_tea j (sqlite.update_tea_row row rows) = sqlite.get_tea j rows.
Proof.
  unfold sqlite.get_tea, sqlite.update_tea_row. intros Hj.
  induction rows as [|r rows IH]; simpl; [reflexivity|].
  destruct (Z.eqb_spec (Tea.id r) (Tea.id row)) as [E|Hne].
  - destruct (Z.eqb_spec (Tea.id row) j); [congruence|].
    destruct (Z.eqb_spec (Tea.id r) j); [congruence|]. exact IH.
  - rewrite IH. reflexivity.
Qed.

Lemma update_tea_row_absent (row : Tea) (rows : list Tea) :
  ~ In (Tea.id row) (map Tea.id rows) ->
  sqlite.update_tea_row row rows = rows.
Proof.
  unfold sqlite.update_tea_row. induction rows as [|r rows IH]; simpl; intros H.
  - reflexivity.
  - destruct (Z.eqb_spec (Tea.id r) (Tea.id row)) as [E|Hne].
    + exfalso. apply H. now left.
    + rewrite IH by tauto. reflexivity.
Qed.

(** Under unique ids the UPDATE rewrites one row and nothing else. *)
Lemma update_tea_row_one (row : Tea) (rows : list Tea) :
  NoDup (map Tea.id rows) ->
  In (Tea.id row) (map Tea.id rows) ->
  exists front old back,
    rows = (front ++ old :: back)%list
    /\ Tea.id old = Tea.id row
    /\ sqlite.update_tea_row row rows = (front ++ row :: back)%list.
Proof.
  induction rows as [|r rows IH]; simpl; intros Hnd Hin; [contradiction|].
  inversion Hnd as [|? ? Hfresh Hnd']; subst.
  destruct (Z.eqb_spec (Tea.id r) (Tea.id row)) as [E|Hne].
  - exists [], r, rows. simpl. repeat split; [exact E|].
    rewrite E in Hfresh. fold (sqlite.update_tea_row row rows).
    now rewrite update_tea_row_absent.
  - destruct Hin as [Hin|Hin]; [contradiction|].
    destruct (IH Hnd' Hin) as [front [old [back [Hrows [Hid Hupd]]]]].
    exists (r :: front), old, back. simpl. repeat split.
    + now rewrite Hrows at 1.
    + exact Hid.
    + fold (sqlite.update_tea_row row rows). now rewrite Hupd.
Qed.

Lemma delete_tea_row_ids (i : Z) (rows : list Tea) :
  forall j, In j (map Tea.id (sqlite.delete_tea_row i rows)) <->
            In j (map Tea.id rows) /\ j <> i.
Proof.
  intros j. unfold sqlite.delete_tea_row. rewrite !in_map_iff. split.
  - intros [r [<- Hin]]. apply filter_In in Hin. destruct Hin as [Hin Hb].
    apply negb_true_iff, Z.eqb_neq in Hb. eauto.
  - intros [[r [<- Hin]] Hne]. exists r. split; [reflexivity|].
    apply filter_In. split; [exact Hin|]. now apply negb_true_iff, Z.eqb_neq.
Qed.

Lemma increasing_snoc (ids : list Z) (i : Z) :
  StronglySorted Z.lt ids -> Forall (fun j => j < i) ids ->
  StronglySorted Z.lt (ids ++ [i])%list.
Proof.
  induction 1 as [|a l Hl IH Ha]; intros Hbelow; simpl.
  - repeat constructor.
  - inversion Hbelow as [|? ? Hai Hli]; subst.
    constructor; [apply IH; exact Hli|].
    apply Forall_app. split; [exact Ha|]. constructor; [exact Hai|constructor].
Qed.

Lemma increasing_nodup (ids : list Z) :
  StronglySorted Z.lt ids -> NoDup ids.
Proof.
  induction 1 as [|a l Hl IH Ha]; constructor; [|exact IH].
  intros Hin. rewrite Forall_forall in Ha. specialize (Ha a Hin). lia.
Qed.

Lemma delete_tea_row_increasing (i : Z) (rows : list Tea) :
  StronglySorted Z.lt (map Tea.id rows) ->
  StronglySorted Z.lt (map Tea.id (sqlite.delete_tea_row i rows)).
Proof.
  unfold sqlite.delete_tea_row.
  induction rows as [|r rows IH]; simpl; intros Hs; [constructor|].
  apply StronglySorted_inv in Hs. destruct Hs as [Hs Hr].
  destruct (negb (Tea.id r =? i)%Z); simpl; [|auto].
  constructor; [auto|].
  rewrite Forall_forall in *. intros j Hj. apply Hr.
  rewrite in_map_iff in *. destruct Hj as [x [<- Hx]].
  apply filter_In in Hx. exists x. tauto.
Qed.

Lemma first_user_unique (users : list User) (user : User) :
  NoDup (map User.username users) -> In user users ->
  sqlite.first_user_where_username (User.username user) users = Some user.
Proof.
  unfold sqlite.first_user_where_username.
  induction users as [|u users IH]; simpl; [tauto|].
  intros Hnd [->|Hin].
  - now rewrite String.eqb_refl.
  - inversion Hnd as [|? ? Hnotin Hnd']; subst.
    destruct (String.eqb_spec (User.username u) (User.username user)) as [E|Hne].
    + exfalso. apply Hnotin. rewrite E. now apply in_map.
    + auto.
Qed.

Lemma first_user_username (name : string) (users : list User) (user : User) :
  sqlite.first_user_where_username name users = Some user ->
  User.username user = name /\ In user users.
Proof.
  unfold sqlite.first_user_where_username. intros H. apply find_some in H.
  destruct H as [Hin H]. apply String.eqb_eq in H. auto.
Qed.


Lemma first_user_unknown (name : string) (users : list User) :
  ~ In name (map User.username users) ->
  sqlite.first_user_where_username name users = None.
Proof.
  unfold sqlite.first_user_where_username. intros H.
  destruct (find (fun u => User.username u =? name) users) as [u|] eqn:E;
    [|reflexivity].
  apply find_some in E. destruct E as [Hin E]. apply String.eqb_eq in E.
  exfalso. apply H. rewrite <- E. now apply in_map.
Qed.

(** ** The authentication dependency and the token helper *)

Section Authentication.

Variable HS256 : string -> jwt.SigningInput -> exn + string.

Lemma decode_accepts (now : Z) (claims : jwt.Payload) (tag : string) :
  HS256 JWT_SECRET_KEY (JWT_ALGORITHM, claims) = inr tag ->
  unexpired now claims ->
  jwt.decode HS256 now (jwt.Compact JWT_ALGORITHM claims tag)
    JWT_SECRET_KEY [JWT_ALGORITHM] = inr claims.
Proof.
  intros Htag Hexp. unfold jwt.decode. simpl.
  change ("HS256", claims) with (JWT_ALGORITHM, claims). rewrite Htag.
  rewrite String.eqb_refl. simpl.
  unfold unexpired in Hexp. destruct (jwt.exp claims) as [t|]; [|reflexivity].
  destruct (Z.leb_spec t now); [lia|reflexivity].
Qed.

Lemma decode_expired (now t : Z) (claims : jwt.Payload) (tag : string) :
  HS256 JWT_SECRET_KEY (JWT_ALGORITHM, claims) = inr tag ->
  jwt.exp claims = Some t -> t <= now ->
  jwt.decode HS256 now (jwt.Compact JWT_ALGORITHM claims tag)
    JWT_SECRET_KEY [JWT_ALGORITHM]
  = inl (ExpiredSignatureError "Signature has expired").
Proof.
  intros Htag Hexp Hle. unfold jwt.decode. simpl.
  change ("HS256", claims) with (JWT_ALGORITHM, claims). rewrite Htag.
  rewrite String.eqb_refl. simpl. rewrite Hexp.
  destruct (Z.leb_spec t now); [reflexivity|lia].
Qed.


(** The dependency only reads: the store is the same afterwards. *)
Lemma get_current_user_reads_only (now : Z) (credentials : jwt.Token)
    (eng : Engine) :
  snd (get_current_user HS256 now credentials eng) = eng.
Proof.
  run_handler.
  destruct (jwt.decode HS256 now credentials JWT_SECRET_KEY [JWT_ALGORITHM])
    as [e|payload].
  - destruct e; reflexivity.
  - destruct (jwt.sub payload) as [username|]; [|reflexivity].
    destruct eng as [db|why]; [|reflexivity].
    destruct (sqlite.first_user_where_username username (user_table db));
      reflexivity.
Qed.

(** What [get_current_user] answers once [jwt.decode] has returned. *)
Lemma get_current_user_decoded (now : Z) (credentials : jwt.Token)
    (payload : jwt.Payload) (db : Database) :
  jwt.decode HS256 now credentials JWT_SECRET_KEY [JWT_ALGORITHM] = inr payload ->
  get_current_user HS256 now credentials (Up db)
  = match jwt.sub payload with
    | None =>
        (inl (HTTPException 401
                "Authentication error: 401: Invalid token: no username found"
                WWW_Authenticate_Bearer), Up db)
    | Some username =>
        match sqlite.first_user_where_username username (user_table db) with
        | Some user => (inr user, Up db)
        | None =>
            (inl (HTTPException 401 "Authentication error: 401: User not found"
                    WWW_Authenticate_Bearer), Up db)
        end
    end.
Proof.
  intros Hdec. run_handler. rewrite Hdec.
  destruct (jwt.sub payload) as [username|]; [|reflexivity].
  destruct (sqlite.first_user_where_username username (user_table db));
    reflexivity.
Qed.

Lemma decode_wrong_tag (now : Z) (claims : jwt.Payload)
    (tag signature : string) :
  HS256 JWT_SECRET_KEY (JWT_ALGORITHM, claims) = inr tag ->
  tag <> signature ->
  jwt.decode HS256 now (jwt.Compact JWT_ALGORITHM claims signature)
    JWT_SECRET_KEY [JWT_ALGORITHM]
  = inl (InvalidTokenError "Signature verification failed").
Proof.
  intros Htag Hne. unfold jwt.decode. simpl.
  change ("HS256", claims) with (JWT_ALGORITHM, claims). rewrite Htag.
  apply String.eqb_neq in Hne. rewrite Hne. reflexivity.
Qed.

(** What [get_current_user] answers when [jwt.decode] raises. *)
Lemma get_current_user_undecoded (now : Z) (credentials : jwt.Token)
    (e : exn) (eng : Engine) :
  jwt.decode HS256 now credentials JWT_SECRET_KEY [JWT_ALGORITHM] = inl e ->
  get_current_user HS256 now credentials eng = get_current_user_except e eng.
Proof.
  intros Hdec.
  unfold get_current_user, get_current_user_try, try_except, bind, call.
  rewrite Hdec. reflexivity.
Qed.


Lemma after_auth {A} (now : Z) (credentials : jwt.Token) (eng : Engine)
    (user : User) (k : User -> M A) :
  get_current_user HS256 now credentials eng = (inr user, eng) ->
  bind (get_current_user HS256 now credentials) k eng = k user eng.
Proof. intros H. unfold bind. rewrite H. reflexivity. Qed.

Lemma auth_refused {A} (now : Z) (credentials : jwt.Token) (eng : Engine)
    (e : exn) (k : User -> M A) :
  fst (get_current_user HS256 now credentials eng) = inl e ->
  bind (get_current_user HS256 now credentials) k eng = (inl e, eng).
Proof.
  intros H. unfold bind.
  pose proof (get_current_user_reads_only now credentials eng) as Hs.
  destruct (get_current_user HS256 now credentials eng) as [[e'|u] eng'];
    simpl in *; congruence.
Qed.

End Authentication.

(** ** Token issue and verification *)

Section Tokens.

Variable HS256 : string -> jwt.SigningInput -> exn + string.

(** C9. When the keyed hash returns a tag, [generate_jwt_token] called
    at time [now] returns a token whose payload carries the subject
    handed in and an expiry of [now] plus 30 minutes (30 * 60 seconds),
    and decoding that token before the expiry gives back exactly these
    two claims. *)
Theorem generate_jwt_token_subject_and_expiry
    (now : Z) (subject : string) (tag : string) (eng : Engine) :
  let claims := {| jwt.sub := Some subject; jwt.exp := Some (now + 30 * 60) |} in
  HS256 JWT_SECRET_KEY (JWT_ALGORITHM, claims) = inr tag ->
  generate_jwt_token HS256 now {| jwt.sub := Some subject; jwt.exp := None |} eng
    = (inr (jwt.Compact JWT_ALGORITHM claims tag), eng)
  /\ forall later, later < now + 30 * 60 ->
       jwt.decode HS256 later (jwt.Compact JWT_ALGORITHM claims tag)
         JWT_SECRET_KEY [JWT_ALGORITHM] = inr claims.
Proof.
  intros claims Htag. split.
  - run_handler. unfold jwt.encode. simpl.
    subst claims. change (30 * 60) with 1800 in Htag |- *.
    rewrite Htag. reflexivity.
  - intros later Hlater. apply decode_accepts; [exact Htag|exact Hlater].
Qed.

(** C1. For every row of the user table (usernames being unique, as the
    column is declared), while the store is reachable and the keyed
    hash returns a tag: [login_for_access_token] with that row's
    username and password returns a bearer token, and
    [get_current_user] on that token at any time before the 30 minutes
    are over returns that same row. *)
Theorem login_then_authenticate
    (db : Database) (user : User) (now later : Z) (tag : string) :
  In user (user_table db) ->
  NoDup (map User.username (user_table db)) ->
  HS256 JWT_SECRET_KEY
    (JWT_ALGORITHM,
     {| jwt.sub := Some (User.username user);
        jwt.exp := Some (now + timedelta_minutes JWT_EXPIRATION_MINUTES) |})
    = inr tag ->
  later < now + timedelta_minutes JWT_EXPIRATION_MINUTES ->
  exists token,
    login_for_access_token HS256 now (User.username user) (User.password user)
      (Up db)
    = (inr {| access_token := token; token_type := "bearer" |}, Up db)
    /\ get_current_user HS256 later token (Up db) = (inr user, Up db).
Proof.
  intros Hin Hnd Htag Hlater.
  change (timedelta_minutes JWT_EXPIRATION_MINUTES) with 1800 in Htag, Hlater.
  pose proof (first_user_unique _ _ Hnd Hin) as Hfind.
  eexists. split.
  - run_handler. rewrite Hfind. rewrite String.eqb_refl. simpl.
    unfold jwt.encode. simpl. rewrite Htag. reflexivity.
  - rewrite (get_current_user_decoded HS256 later _ _ db
               (decode_accepts HS256 later _ tag Htag Hlater)).
    simpl. rewrite Hfind. reflexivity.
Qed.

(** C3, amended. A token whose tag verifies under the service key and
    whose expiry is at or before the current time is refused with 401
    "Token has expired", whatever the state of the store.  The tag is
    checked first: the same claims under any other tag are refused with
    401 "Invalid token: Signature verification failed". *)
Theorem expired_token_rejected
    (now t : Z) (claims : jwt.Payload) (tag : string) (eng : Engine) :
  HS256 JWT_SECRET_KEY (JWT_ALGORITHM, claims) = inr tag ->
  jwt.exp claims = Some t ->
  t <= now ->
  get_current_user HS256 now (jwt.Compact JWT_ALGORITHM claims tag) eng
    = (inl (HTTPException 401 "Token has expired" WWW_Authenticate_Bearer), eng)
  /\ forall signature, signature <> tag ->
       get_current_user HS256 now (jwt.Compact JWT_ALGORITHM claims signature) eng
       = (inl (HTTPException 401 "Invalid token: Signature verification failed"
                 WWW_Authenticate_Bearer), eng).
Proof.
  intros Htag Hexp Hle. split.
  - rewrite (get_current_user_undecoded HS256 now _ _ eng
               (decode_expired HS256 now t claims tag Htag Hexp Hle)).
    reflexivity.
  - intros signature Hne.
    rewrite (get_current_user_undecoded HS256 now _ _ eng
               (decode_wrong_tag HS256 now claims tag signature Htag
                  (not_eq_sym Hne))).
    reflexivity.
Qed.


End Tokens.

(** ** The tea handlers *)

Section Handlers.

Variable HS256 : string -> jwt.SigningInput -> exn + string.

Lemma auth_cases (now : Z) (credentials : jwt.Token) (eng : Engine) :
  (exists e, get_current_user HS256 now credentials eng = (inl e, eng))
  \/ (exists user, get_current_user HS256 now credentials eng = (inr user, eng)).
Proof.
  pose proof (get_current_user_reads_only HS256 now credentials eng) as Hs.
  destruct (get_current_user HS256 now credentials eng) as [[e|user] eng'];
    simpl in Hs; subst eng'; eauto.
Qed.

Lemma create_tea_run (now : Z) (tea : TeaCreate) (credentials : jwt.Token)
    (db : Database) (user : User) (i : Z) :
  get_current_user HS256 now credentials (Up db) = (inr user, Up db) ->
  sqlite.new_rowid (tea_ids db) = Some i ->
  let created := Tea.mk i (TeaCreate.name tea) (TeaCreate.origin tea) in
  create_tea HS256 now tea credentials (Up db)
  = (inr created,
     Up {| user_table := user_table db;
           tea_table := (tea_table db ++ [created])%list |}).
Proof.
  intros Hauth Hnew created. unfold create_tea.
  rewrite (after_auth HS256 now credentials (Up db) user _ Hauth).
  unfold tea_ids in Hnew. run_body. rewrite Hnew. run_body.
  pose proof (get_tea_appended (tea_table db) created) as Hget.
  simpl in Hget. fold created. rewrite Hget; [reflexivity|].
  now apply new_rowid_unused.
Qed.

Lemma update_tea_missing (now tea_id : Z) (tea_update : TeaCreate)
    (credentials : jwt.Token) (db : Database) (user : User) :
  get_current_user HS256 now credentials (Up db) = (inr user, Up db) ->
  sqlite.get_tea tea_id (tea_table db) = None ->
  sqlite.is_rowid tea_id = true ->
  update_tea HS256 now tea_id tea_update credentials (Up db)
  = (inl (HTTPException 404 "Tea not found" []), Up db).
Proof.
  intros Hauth Hget Hfits. unfold update_tea.
  rewrite (after_auth HS256 now credentials (Up db) user _ Hauth).
  run_body. rewrite Hget, Hfits. reflexivity.
Qed.

Lemma update_tea_overflow (now tea_id : Z) (tea_update : TeaCreate)
    (credentials : jwt.Token) (db : Database) (user : User) :
  get_current_user HS256 now credentials (Up db) = (inr user, Up db) ->
  sqlite.get_tea tea_id (tea_table db) = None ->
  sqlite.is_rowid tea_id = false ->
  update_tea HS256 now tea_id tea_update credentials (Up db)
  = (inl (PyException "OverflowError"
            "Python int too large to convert to SQLite INTEGER"), Up db).
Proof.
  intros Hauth Hget Hfits. unfold update_tea.
  rewrite (after_auth HS256 now credentials (Up db) user _ Hauth).
  run_body. rewrite Hget, Hfits. reflexivity.
Qed.

(** An update that finds no row raises and leaves the store alone. *)
Lemma update_tea_unfound (now tea_id : Z) (tea_update : TeaCreate)
    (credentials : jwt.Token) (db : Database) (user : User) :
  get_current_user HS256 now credentials (Up db) = (inr user, Up db) ->
  sqlite.get_tea tea_id (tea_table db) = None ->
  exists e,
    update_tea HS256 now tea_id tea_update credentials (Up db) = (inl e, Up db).
Proof.
  intros Hauth Hget. destruct (sqlite.is_rowid tea_id) eqn:Hfits.
  - eexists. exact (update_tea_missing now tea_id tea_update credentials db user
                      Hauth Hget Hfits).
  - eexists. exact (update_tea_overflow now tea_id tea_update credentials db user
                      Hauth Hget Hfits).
Qed.

Lemma update_tea_found (now tea_id : Z) (tea_update : TeaCreate)
    (credentials : jwt.Token) (db : Database) (user : User) (row : Tea) :
  get_current_user HS256 now credentials (Up db) = (inr user, Up db) ->
  sqlite.get_tea tea_id (tea_table db) = Some row ->
  let updated :=
    Tea.mk tea_id (TeaCreate.name tea_update) (TeaCreate.origin tea_update) in
  update_tea HS256 now tea_id tea_update credentials (Up db)
  = (inr updated,
     Up {| user_table := user_table db;
           tea_table := sqlite.update_tea_row updated (tea_table db) |}).
Proof.
  intros Hauth Hget updated. unfold update_tea.
  rewrite (after_auth HS256 now credentials (Up db) user _ Hauth).
  run_body. rewrite Hget. run_body.
  destruct (get_tea_id _ _ _ Hget) as [Hid Hin]. rewrite Hid. fold updated.
  pose proof (get_tea_updated updated (tea_table db)) as Hback.
  change (Tea.id updated) with tea_id in Hback |- *.
  rewrite Hback; [reflexivity|].
  rewrite <- Hid. now apply in_map.
Qed.

Lemma delete_tea_missing (now tea_id : Z) (credentials : jwt.Token)
    (db : Database) (user : User) :
  get_current_user HS256 now credentials (Up db) = (inr user, Up db) ->
  sqlite.get_tea tea_id (tea_table db) = None ->
  sqlite.is_rowid tea_id = true ->
  delete_tea HS256 now tea_id credentials (Up db)
  = (inl (HTTPException 404 "Tea not found" []), Up db).
Proof.
  intros Hauth Hget Hfits. unfold delete_tea.
  rewrite (after_auth HS256 now credentials (Up db) user _ Hauth).
  run_body. rewrite Hget, Hfits. reflexivity.
Qed.

Lemma delete_tea_overflow (now tea_id : Z) (credentials : jwt.Token)
    (db : Database) (user : User) :
  get_current_user HS256 now credentials (Up db) = (inr user, Up db) ->
  sqlite.get_tea tea_id (tea_table db) = None ->
  sqlite.is_rowid tea_id = false ->
  delete_tea HS256 now tea_id credentials (Up db)
  = (inl (PyException "OverflowError"
            "Python int too large to convert to SQLite INTEGER"), Up db).
Proof.
  intros Hauth Hget Hfits. unfold delete_tea.
  rewrite (after_auth HS256 now credentials (Up db) user _ Hauth).
  run_body. rewrite Hget, Hfits. reflexivity.
Qed.

(** A delete that finds no row raises and leaves the store alone. *)
Lemma delete_tea_unfound (now tea_id : Z) (credentials : jwt.Token)
    (db : Database) (user : User) :
  get_current_user HS256 now credentials (Up db) = (inr user, Up db) ->
  sqlite.get_tea tea_id (tea_table db) = None ->
  exists e, delete_tea HS256 now tea_id credentials (Up db) = (inl e, Up db).
Proof.
  intros Hauth Hget. destruct (sqlite.is_rowid tea_id) eqn:Hfits.
  - eexists. exact (delete_tea_missing now tea_id credentials db user
                      Hauth Hget Hfits).
  - eexists. exact (delete_tea_overflow now tea_id credentials db user
                      Hauth Hget Hfits).
Qed.

Lemma delete_tea_found (now tea_id : Z) (credentials : jwt.Token)
    (db : Database) (user : User) (row : Tea) :
  get_current_user HS256 now credentials (Up db) = (inr user, Up db) ->
  sqlite.get_tea tea_id (tea_table db) = Some row ->
  delete_tea HS256 now tea_id credentials (Up db)
  = (inr {| message := "Tea with id " ++ str_int tea_id ++ " deleted" |},
     Up {| user_table := user_table db;
           tea_table := sqlite.delete_tea_row tea_id (tea_table db) |}).
Proof.
  intros Hauth Hget. unfold delete_tea.
  rewrite (after_auth HS256 now credentials (Up db) user _ Hauth).
  run_body. rewrite Hget. run_body.
  destruct (get_tea_id _ _ _ Hget) as [Hid Hin]. rewrite Hid. reflexivity.
Qed.

(** A call that is not a create leaves the store reachable and adds no
    id to the tea table. *)
Lemma serve_adds_no_id (db : Database) (c : Call) :
  is_create c = false ->
  exists db',
    serve HS256 (Up db) c = Up db'
    /\ user_table db' = user_table db
    /\ forall j, In j (tea_ids db') -> In j (tea_ids db).
Proof.
  intros Hc. unfold serve, is_create in *.
  destruct (request c) as [tea|tea_id tea_update|tea_id]; [discriminate| |].
  - destruct (auth_cases (at_time c) (bearer c) (Up db)) as [[e He]|[u Hu]].
    + unfold update_tea.
      rewrite (auth_refused HS256 _ _ _ e) by (rewrite He; reflexivity).
      exists db. simpl. auto.
    + destruct (sqlite.get_tea tea_id (tea_table db)) as [row|] eqn:Hget.
      * rewrite (update_tea_found _ _ tea_update _ _ _ _ Hu Hget). simpl.
        eexists. split; [reflexivity|]. split; [reflexivity|].
        unfold tea_ids. simpl. intros j. now rewrite update_tea_row_ids.
      * destruct (update_tea_unfound _ _ tea_update _ _ _ Hu Hget) as [e' ->].
        exists db. simpl. auto.
  - destruct (auth_cases (at_time c) (bearer c) (Up db)) as [[e He]|[u Hu]].
    + unfold delete_tea.
      rewrite (auth_refused HS256 _ _ _ e) by (rewrite He; reflexivity).
      exists db. simpl. auto.
    + destruct (sqlite.get_tea tea_id (tea_table db)) as [row|] eqn:Hget.
      * rewrite (delete_tea_found _ _ _ _ _ _ Hu Hget). simpl.
        eexists. split; [reflexivity|]. split; [reflexivity|].
        unfold tea_ids. simpl. intros j Hj.
        now apply delete_tea_row_ids in Hj.
      * destruct (delete_tea_unfound _ _ _ _ _ Hu Hget) as [e' ->].
        exists db. simpl. auto.
Qed.

Lemma serve_all_adds_no_id (calls : list Call) (db : Database) :
  forallb (fun c => negb (is_create c)) calls = true ->
  exists db',
    serve_all HS256 (Up db) calls = Up db'
    /\ user_table db' = user_table db
    /\ forall j, In j (tea_ids db') -> In j (tea_ids db).
Proof.
  revert db. induction calls as [|c calls IH]; intros db Hall; simpl.
  - exists db. auto.
  - simpl in Hall. apply andb_true_iff in Hall. destruct Hall as [Hc Hall].
    apply negb_true_iff in Hc.
    destruct (serve_adds_no_id db c Hc) as [db1 [Hstep [Hu1 Hsub1]]].
    unfold serve_all in IH. rewrite Hstep.
    destruct (IH db1 Hall) as [db' [Hrun [Hu Hsub]]].
    exists db'. split; [exact Hrun|]. split; [congruence|]. auto.
Qed.

Lemma create_tea_full (now : Z) (tea : TeaCreate) (credentials : jwt.Token)
    (db : Database) (user : User) :
  get_current_user HS256 now credentials (Up db) = (inr user, Up db) ->
  sqlite.new_rowid (tea_ids db) = None ->
  create_tea HS256 now tea credentials (Up db)
  = (inl (PyException "OperationalError" "database or disk is full"), Up db).
Proof.
  intros Hauth Hnew. unfold create_tea.
  rewrite (after_auth HS256 now credentials (Up db) user _ Hauth).
  unfold tea_ids in Hnew. run_body. rewrite Hnew. reflexivity.
Qed.

(** Every mutating call, whatever its outcome, leaves the store reachable,
    the accounts as they were and the tea table in increasing id order. *)
Lemma serve_keeps_rowid_order (db : Database) (c : Call) :
  rowid_ordered db ->
  exists db',
    serve HS256 (Up db) c = Up db'
    /\ user_table db' = user_table db
    /\ rowid_ordered db'.
Proof.
  intros Hord. unfold serve.
  destruct (auth_cases (at_time c) (bearer c) (Up db)) as [[e He]|[u Hu]].
  - exists db.
    destruct (request c) as [tea|tea_id tea_update|tea_id];
      [unfold create_tea|unfold update_tea|unfold delete_tea];
      rewrite (auth_refused HS256 _ _ _ e) by (rewrite He; reflexivity);
      simpl; auto.
  - destruct (request c) as [tea|tea_id tea_update|tea_id].
    + destruct (sqlite.new_rowid (tea_ids db)) as [i|] eqn:Hnew.
      * rewrite (create_tea_run _ tea _ _ _ _ Hu Hnew). simpl.
        eexists. split; [reflexivity|]. split; [reflexivity|].
        unfold rowid_ordered, tea_ids in *. simpl. rewrite map_app. simpl.
        apply increasing_snoc; [exact Hord|now apply new_rowid_above].
      * rewrite (create_tea_full _ tea _ _ _ Hu Hnew). exists db. simpl. auto.
    + destruct (sqlite.get_tea tea_id (tea_table db)) as [row|] eqn:Hget.
      * rewrite (update_tea_found _ _ tea_update _ _ _ _ Hu Hget). simpl.
        eexists. split; [reflexivity|]. split; [reflexivity|].
        unfold rowid_ordered, tea_ids in *. simpl.
        now rewrite update_tea_row_ids.
      * destruct (update_tea_unfound _ _ tea_update _ _ _ Hu Hget) as [e' ->].
        exists db. simpl. auto.
    + destruct (sqlite.get_tea tea_id (tea_table db)) as [row|] eqn:Hget.
      * rewrite (delete_tea_found _ _ _ _ _ _ Hu Hget). simpl.
        eexists. split; [reflexivity|]. split; [reflexivity|].
        unfold rowid_ordered, tea_ids in *. simpl.
        now apply delete_tea_row_increasing.
      * destruct (delete_tea_unfound _ _ _ _ _ Hu Hget) as [e' ->].
        exists db. simpl. auto.
Qed.

Lemma serve_all_keeps_rowid_order (calls : list Call) (db : Database) :
  rowid_ordered db ->
  exists db',
    serve_all HS256 (Up db) calls = Up db'
    /\ user_table db' = user_table db
    /\ rowid_ordered db'
    /\ NoDup (tea_ids db').
Proof.
  revert db. induction calls as [|c calls IH]; intros db Hord; simpl.
  - exists db. repeat split; auto. now apply increasing_nodup.
  - destruct (serve_keeps_rowid_order db c Hord) as [db1 [Hstep [Hu1 Hord1]]].
    rewrite Hstep. destruct (IH db1 Hord1) as [db' [Hrun [Hu [Hord' Hnd]]]].
    exists db'. repeat split; auto. congruence.
Qed.




(** On a table of rowids the lookup is the driver's range check followed
    by the select. *)
Lemma get_range_first (i : Z) (db : Database) :
  holds_rowids db ->
  sqlite.get i (tea_table db)
  = if sqlite.is_rowid i then inr (sqlite.get_tea i (tea_table db))
    else inl (PyException "OverflowError"
                "Python int too large to convert to SQLite INTEGER").
Proof.
  intros Hrows. unfold sqlite.get.
  destruct (sqlite.get_tea i (tea_table db)) as [row|] eqn:Hget.
  - destruct (get_tea_id _ _ _ Hget) as [Hid Hin].
    unfold holds_rowids, tea_ids in Hrows. rewrite Forall_forall in Hrows.
    rewrite (Hrows i) by (rewrite <- Hid; now apply in_map). reflexivity.
  - reflexivity.
Qed.

(** Every mutating call keeps the tea table a table of rowids. *)
Lemma serve_keeps_rowids (db : Database) (c : Call) :
  holds_rowids db ->
  exists db', serve HS256 (Up db) c = Up db' /\ holds_rowids db'.
Proof.
  intros Hrows.
  destruct (is_create c) eqn:Hkind.
  - unfold is_create, serve in *.
    destruct (request c) as [tea| |]; try discriminate.
    destruct (auth_cases (at_time c) (bearer c) (Up db)) as [[e He]|[u Hu]].
    + unfold create_tea.
      rewrite (auth_refused HS256 _ _ _ e) by (rewrite He; reflexivity).
      exists db. simpl. auto.
    + destruct (sqlite.new_rowid (tea_ids db)) as [k|] eqn:Hnew.
      * rewrite (create_tea_run _ tea _ _ _ _ Hu Hnew). simpl.
        eexists. split; [reflexivity|].
        unfold holds_rowids, tea_ids in *. simpl. rewrite map_app.
        apply Forall_app. split; [exact Hrows|]. constructor; [|constructor].
        simpl. apply is_rowid_spec.
        unfold sqlite.new_rowid in Hnew.
        destruct (sqlite.largest (map Tea.id (tea_table db))) as [g|] eqn:E.
        -- destruct (Z.ltb_spec g sqlite.MAX_ROWID); [|discriminate].
           injection Hnew as <-. apply largest_in in E.
           rewrite Forall_forall in Hrows. specialize (Hrows g E).
           apply is_rowid_spec in Hrows. lia.
        -- injection Hnew as <-. unfold sqlite.MIN_ROWID, sqlite.MAX_ROWID. lia.
      * rewrite (create_tea_full _ tea _ _ _ Hu Hnew). exists db. simpl. auto.
  - destruct (serve_adds_no_id db c Hkind) as [db' [Hstep [_ Hsub]]].
    exists db'. split; [exact Hstep|].
    unfold holds_rowids in *. rewrite Forall_forall in *. auto.
Qed.

End Handlers.

(** ** Claims on the tea lifecycle *)

Section Lifecycle.

Variable HS256 : string -> jwt.SigningInput -> exn + string.



(** C10. With a token [get_current_user] accepts, [update_tea] on an id
    present in the tea table returns the record with that same id and
    the submitted name and origin; the table afterwards is the former
    table with the rows of that id replaced by this record: the ids are
    the same in the same order, every row with another id is the row it
    was, at the position it had, and the accounts are untouched.  Ids
    being unique (which every call preserves, see
    [serve_all_keeps_rowid_order]), exactly one row is rewritten. *)
Theorem update_tea_changes_one_record
    (now tea_id : Z) (tea_update : TeaCreate) (credentials : jwt.Token)
    (db : Database) (user : User) :
  get_current_user HS256 now credentials (Up db) = (inr user, Up db) ->
  In tea_id (tea_ids db) ->
  let updated :=
    Tea.mk tea_id (TeaCreate.name tea_update) (TeaCreate.origin tea_update) in
  exists db',
    update_tea HS256 now tea_id tea_update credentials (Up db)
      = (inr updated, Up db')
    /\ user_table db' = user_table db
    /\ tea_ids db' = tea_ids db
    /\ sqlite.get_tea tea_id (tea_table db') = Some updated
    /\ (forall n row, nth_error (tea_table db) n = Some row ->
          nth_error (tea_table db') n
          = Some (if (Tea.id row =? tea_id)%Z then updated else row))
    /\ (forall j, j <> tea_id ->
          sqlite.get_tea j (tea_table db') = sqlite.get_tea j (tea_table db))
    /\ (NoDup (tea_ids db) ->
        exists front old back,
          tea_table db = (front ++ old :: back)%list
          /\ Tea.id old = tea_id
          /\ tea_table db' = (front ++ updated :: back)%list).
Proof.
  intros Hauth Hpresent updated.
  destruct (get_tea_present tea_id (tea_table db) Hpresent) as [row [Hget Hid]].
  pose proof (update_tea_found HS256 now tea_id tea_update credentials db user
                row Hauth Hget) as Hrun. simpl in Hrun. fold updated in Hrun.
  eexists. split; [exact Hrun|]. simpl.
  split; [reflexivity|]. split; [apply update_tea_row_ids|].
  split; [exact (get_tea_updated updated (tea_table db) Hpresent)|].
  split; [|split].
  - intros n row' Hn. unfold sqlite.update_tea_row.
    rewrite nth_error_map, Hn. reflexivity.
  - intros j Hj. now apply get_tea_update_other.
  - intros Hnd. exact (update_tea_row_one updated (tea_table db) Hnd Hpresent).
Qed.


End Lifecycle.

(** ** Claims on login and on failures of the collaborators *)

Section Failures.

Variable HS256 : string -> jwt.SigningInput -> exn + string.

(** C7. While the store is reachable, when no account has the given
    username, or the account found under it stores a password that is
    not the given string, [login_for_access_token] raises 401
    "Incorrect username or password" and returns no token; the store is
    unchanged.  This holds for every keyed hash, also one that raises
    whenever it is called: the token helper is not reached. *)
Theorem login_rejects_bad_credentials
    (now : Z) (username password : string) (db : Database) :
  (~ In username (map User.username (user_table db))
   \/ exists user,
        sqlite.first_user_where_username username (user_table db) = Some user
        /\ User.password user <> password) ->
  login_for_access_token HS256 now username password (Up db)
    = (inl (HTTPException 401 "Incorrect username or password"
              WWW_Authenticate_Bearer), Up db)
  /\ respond (fst (login_for_access_token HS256 now username password (Up db)))
     = Error 401 "Incorrect username or password" WWW_Authenticate_Bearer.
Proof.
  intros Hbad.
  assert (login_for_access_token HS256 now username password (Up db)
          = (inl (HTTPException 401 "Incorrect username or password"
                    WWW_Authenticate_Bearer), Up db)) as Hrun.
  { unfold login_for_access_token, try_except, bind, Session, raise.
    destruct Hbad as [Hunknown|[user [Hfind Hpw]]].
    - rewrite (first_user_unknown username (user_table db) Hunknown).
      reflexivity.
    - rewrite Hfind. apply String.eqb_neq in Hpw. rewrite Hpw. reflexivity. }
  rewrite Hrun. split; reflexivity.
Qed.

(** C8, amended.
    - When the store cannot be opened, [login_for_access_token] and
      [get_teas] raise the store's exception unchanged and the client
      receives 500 with the fixed text "Internal Server Error".
    - When the keyed hash raises during login (an exception other than
      an [HTTPException]), the exception passes through both [except]
      clauses unchanged and the client receives the same 500.
    - Inside [get_current_user] a store failure is caught by the last
      [except] clause: with a verifying, unexpired token that names a
      subject, [get_current_user] raises 401 with the detail
      "Authentication error: " followed by the exception text, and
      create, update and delete answer with that 401. *)
Theorem failures_of_store_and_signer :
  (forall now username password why,
      login_for_access_token HS256 now username password (Down why)
        = (inl (PyException "OperationalError" why), Down why)
      /\ respond (fst (login_for_access_token HS256 now username password
                         (Down why)))
         = Error 500 "Internal Server Error" []
      /\ respond (fst (get_teas (Down why)))
         = Error 500 "Internal Server Error" [])
  /\ (forall now db user e,
      sqlite.first_user_where_username (User.username user) (user_table db)
        = Some user ->
      HS256 JWT_SECRET_KEY
        (JWT_ALGORITHM,
         {| jwt.sub := Some (User.username user);
            jwt.exp := Some (now + timedelta_minutes JWT_EXPIRATION_MINUTES) |})
        = inl e ->
      (forall status_code detail headers,
          e <> HTTPException status_code detail headers) ->
      login_for_access_token HS256 now (User.username user)
        (User.password user) (Up db) = (inl e, Up db)
      /\ respond (fst (login_for_access_token HS256 now (User.username user)
                         (User.password user) (Up db)))
         = Error 500 "Internal Server Error" [])
  /\ (forall now claims tag subject why,
      HS256 JWT_SECRET_KEY (JWT_ALGORITHM, claims) = inr tag ->
      unexpired now claims ->
      jwt.sub claims = Some subject ->
      let token := jwt.Compact JWT_ALGORITHM claims tag in
      get_current_user HS256 now token (Down why)
        = (inl (HTTPException 401 ("Authentication error: " ++ why)
                  WWW_Authenticate_Bearer), Down why)
      /\ (forall tea,
            respond (fst (create_tea HS256 now tea token (Down why)))
            = Error 401 ("Authentication error: " ++ why)
                WWW_Authenticate_Bearer)
      /\ (forall tea_id tea_update,
            respond (fst (update_tea HS256 now tea_id tea_update token (Down why)))
            = Error 401 ("Authentication error: " ++ why)
                WWW_Authenticate_Bearer)
      /\ (forall tea_id,
            respond (fst (delete_tea HS256 now tea_id token (Down why)))
            = Error 401 ("Authentication error: " ++ why)
                WWW_Authenticate_Bearer)).
Proof.
  split; [|split].
  - intros now username password why. repeat split.
  - intros now db user e Hfind Hraise Hclass.
    change (timedelta_minutes JWT_EXPIRATION_MINUTES) with 1800 in Hraise.
    assert (login_for_access_token HS256 now (User.username user)
              (User.password user) (Up db) = (inl e, Up db)) as Hrun.
    { run_handler. rewrite Hfind. rewrite String.eqb_refl. simpl.
      unfold jwt.encode. simpl. rewrite Hraise. reflexivity. }
    rewrite Hrun. split; [reflexivity|]. simpl.
    destruct e; try reflexivity. exfalso. eapply Hclass. reflexivity.
  - intros now claims tag subject why Htag Hexp Hsub token.
    pose proof (decode_accepts HS256 now claims tag Htag Hexp) as Hdec.
    assert (get_current_user HS256 now token (Down why)
            = (inl (HTTPException 401 ("Authentication error: " ++ why)
                      WWW_Authenticate_Bearer), Down why)) as Hrefused.
    { unfold get_current_user, get_current_user_try, try_except, bind, call.
      unfold token. rewrite Hdec, Hsub. reflexivity. }
    split; [exact Hrefused|].
    repeat split; intros.
    + unfold create_tea. rewrite (auth_refused HS256 _ _ _ _ _
                                    (f_equal fst Hrefused)). reflexivity.
    + unfold update_tea. rewrite (auth_refused HS256 _ _ _ _ _
                                    (f_equal fst Hrefused)). reflexivity.
    + unfold delete_tea. rewrite (auth_refused HS256 _ _ _ _ _
                                    (f_equal fst Hrefused)). reflexivity.
Qed.

End Failures.

(** * Further properties of the handlers *)

(** ** Authentication *)

Section MoreAuthentication.

Variable HS256 : string -> jwt.SigningInput -> exn + string.

(** What [jwt.decode] has checked when it returns. *)
Lemma decode_sound (now : Z) (token : jwt.Token) (payload : jwt.Payload) :
  jwt.decode HS256 now token JWT_SECRET_KEY [JWT_ALGORITHM] = inr payload ->
  exists signature,
    token = jwt.Compact JWT_ALGORITHM payload signature
    /\ HS256 JWT_SECRET_KEY (JWT_ALGORITHM, payload) = inr signature
    /\ unexpired now payload.
Proof.
  unfold jwt.decode, JWT_ALGORITHM.
  destruct token as [alg claims signature|raw]; simpl; [|discriminate].
  destruct (String.eqb_spec alg "HS256") as [->|Hne]; simpl; [|discriminate].
  destruct (HS256 JWT_SECRET_KEY ("HS256", claims)) as [e|tag] eqn:Htag;
    [discriminate|].
  destruct (String.eqb_spec tag signature) as [->|Hsig]; simpl; [|discriminate].
  unfold unexpired.
  destruct (jwt.exp claims) as [t|] eqn:Hexp.
  - destruct (Z.leb_spec t now) as [Hle|Hlt]; [discriminate|].
    intros Hret. injection Hret as <-. exists signature. rewrite Hexp. auto.
  - intros Hret. injection Hret as <-. exists signature. rewrite Hexp. auto.
Qed.


(** The outcome of [get_current_user] is decided by the user table alone:
    the teas play no part. *)
Lemma get_current_user_same_users (now : Z) (credentials : jwt.Token)
    (db db' : Database) :
  user_table db' = user_table db ->
  get_current_user HS256 now credentials (Up db')
  = (fst (get_current_user HS256 now credentials (Up db)), Up db').
Proof.
  intros Husers. run_handler.
  destruct (jwt.decode HS256 now credentials JWT_SECRET_KEY [JWT_ALGORITHM])
    as [e|payload].
  - destruct e; reflexivity.
  - destruct (jwt.sub payload) as [username|]; [|reflexivity].
    rewrite Husers.
    destruct (sqlite.first_user_where_username username (user_table db));
      reflexivity.
Qed.

(** X1. Whatever the token, the time, the keyed hash and the state of the
    store, [get_current_user] leaves the store as it found it and either
    returns an account or raises an [HTTPException] with status 401 and
    the header WWW-Authenticate: Bearer.  No other exception and no other
    status leaves it, so the client never sees 500 from this dependency. *)
Theorem get_current_user_only_refuses_with_401
    (now : Z) (credentials : jwt.Token) (eng : Engine) :
  snd (get_current_user HS256 now credentials eng) = eng
  /\ ((exists user, fst (get_current_user HS256 now credentials eng) = inr user)
      \/ exists detail,
           fst (get_current_user HS256 now credentials eng)
             = inl (HTTPException 401 detail WWW_Authenticate_Bearer)
           /\ respond (fst (get_current_user HS256 now credentials eng))
              = Error 401 detail WWW_Authenticate_Bearer).
Proof.
  split; [apply get_current_user_reads_only|].
  run_handler.
  destruct (jwt.decode HS256 now credentials JWT_SECRET_KEY [JWT_ALGORITHM])
    as [e|payload].
  - right. destruct e; simpl; eauto.
  - destruct (jwt.sub payload) as [username|]; [|right; simpl; eauto].
    destruct eng as [db|why]; [|right; simpl; eauto].
    destruct (sqlite.first_user_where_username username (user_table db));
      [left|right]; simpl; eauto.
Qed.

(** X2. When [get_current_user] returns an account, the store was
    reachable, the token had three segments and the header HS256, its tag
    is the one the service key gives for its header and payload, its
    expiry (if it has one) lies after the current time, its [sub] is the
    username of the returned account, and that account is a row of the
    user table. *)
Theorem get_current_user_sound
    (now : Z) (credentials : jwt.Token) (eng : Engine) (user : User) :
  fst (get_current_user HS256 now credentials eng) = inr user ->
  exists db claims signature,
    eng = Up db
    /\ credentials = jwt.Compact JWT_ALGORITHM claims signature
    /\ HS256 JWT_SECRET_KEY (JWT_ALGORITHM, claims) = inr signature
    /\ unexpired now claims
    /\ jwt.sub claims = Some (User.username user)
    /\ In user (user_table db).
Proof.
  unfold get_current_user, get_current_user_try, try_except, bind, call.
  destruct (jwt.decode HS256 now credentials JWT_SECRET_KEY [JWT_ALGORITHM])
    as [e|payload] eqn:Hdec.
  - destruct e; discriminate.
  - destruct (decode_sound now credentials payload Hdec)
      as [signature [Htok [Htag Hexp]]].
    destruct (jwt.sub payload) as [username|] eqn:Hsub; [|discriminate].
    destruct eng as [db|why]; [|discriminate].
    unfold Session, raise, ret. simpl.
    destruct (sqlite.first_user_where_username username (user_table db))
      as [found|] eqn:Hfind; simpl; [|discriminate].
    intros H. injection H as <-.
    destruct (first_user_username _ _ _ Hfind) as [Hname Hin].
    exists db, payload, signature. rewrite Hname. auto 10.
Qed.


(** X4. The token [login_for_access_token] issues at time [now] for a row
    of the user table is good for exactly 30 minutes: [get_current_user]
    returns that row at every time before [now + 1800] seconds, and from
    [now + 1800] on it raises 401 "Token has expired", whatever the state
    of the store then. *)
Theorem issued_token_validity_window
    (db : Database) (user : User) (now : Z) (tag : string) :
  In user (user_table db) ->
  NoDup (map User.username (user_table db)) ->
  HS256 JWT_SECRET_KEY
    (JWT_ALGORITHM,
     {| jwt.sub := Some (User.username user); jwt.exp := Some (now + 1800) |})
    = inr tag ->
  exists token,
    login_for_access_token HS256 now (User.username user) (User.password user)
      (Up db)
    = (inr {| access_token := token; token_type := "bearer" |}, Up db)
    /\ (forall later, later < now + 1800 ->
          get_current_user HS256 later token (Up db) = (inr user, Up db))
    /\ (forall later eng, now + 1800 <= later ->
          get_current_user HS256 later token eng
          = (inl (HTTPException 401 "Token has expired" WWW_Authenticate_Bearer),
             eng)).
Proof.
  intros Hin Hnd Htag.
  pose proof (first_user_unique _ _ Hnd Hin) as Hfind.
  eexists. split; [|split].
  - run_handler. rewrite Hfind. rewrite String.eqb_refl. simpl.
    unfold jwt.encode. simpl. rewrite Htag. reflexivity.
  - intros later Hlater.
    rewrite (get_current_user_decoded HS256 later _ _ db
               (decode_accepts HS256 later _ tag Htag Hlater)).
    simpl. rewrite Hfind. reflexivity.
  - intros later eng Hlate.
    rewrite (get_current_user_undecoded HS256 later _ _ eng
               (decode_expired HS256 later (now + 1800) _ tag Htag eq_refl Hlate)).
    reflexivity.
Qed.

(** X5. The handler does not require an [exp] claim: a token whose tag
    verifies, that carries no expiry and names the username of a stored
    account, is accepted at every time. *)
Theorem token_without_expiry_never_expires
    (db : Database) (user : User) (tag : string) :
  sqlite.first_user_where_username (User.username user) (user_table db)
    = Some user ->
  HS256 JWT_SECRET_KEY
    (JWT_ALGORITHM, {| jwt.sub := Some (User.username user); jwt.exp := None |})
    = inr tag ->
  forall now,
    get_current_user HS256 now
      (jwt.Compact JWT_ALGORITHM
         {| jwt.sub := Some (User.username user); jwt.exp := None |} tag)
      (Up db)
    = (inr user, Up db).
Proof.
  intros Hfind Htag now.
  rewrite (get_current_user_decoded HS256 now _ _ db
             (decode_accepts HS256 now _ tag Htag I)).
  simpl. rewrite Hfind. reflexivity.
Qed.

(** X6. [login_for_access_token] never changes the store.  When it
    returns a response, the store was reachable, some row of the user
    table has exactly the given username and password, the token type is
    "bearer", and the token is the HS256 token whose payload is that
    username as [sub] and [now + 1800] as [exp], under the tag the
    service key gives for it. *)
Theorem login_sound (now : Z) (username password : string) (eng : Engine) :
  snd (login_for_access_token HS256 now username password eng) = eng
  /\ forall response,
       fst (login_for_access_token HS256 now username password eng)
         = inr response ->
       exists db user tag,
         eng = Up db
         /\ In user (user_table db)
         /\ User.username user = username
         /\ User.password user = password
         /\ HS256 JWT_SECRET_KEY
              (JWT_ALGORITHM,
               {| jwt.sub := Some username; jwt.exp := Some (now + 1800) |})
            = inr tag
         /\ response
            = {| access_token :=
                   jwt.Compact JWT_ALGORITHM
                     {| jwt.sub := Some username; jwt.exp := Some (now + 1800) |}
                     tag;
                 token_type := "bearer" |}.
Proof.
  unfold login_for_access_token, generate_jwt_token, try_except, bind, call,
    raise, ret, Session.
  destruct eng as [db|why]; [|split; [reflexivity|discriminate]].
  destruct (sqlite.first_user_where_username username (user_table db))
    as [user|] eqn:Hfind; [|split; [reflexivity|discriminate]].
  destruct (first_user_username _ _ _ Hfind) as [Hname Hin].
  destruct (String.eqb_spec (User.password user) password) as [Hpw|Hpw]; simpl;
    [|split; [reflexivity|discriminate]].
  unfold jwt.encode. simpl. rewrite Hname.
  destruct (HS256 JWT_SECRET_KEY
              (JWT_ALGORITHM,
               {| jwt.sub := Some username; jwt.exp := Some (now + 1800) |}))
    as [e|tag] eqn:Htag; simpl.
  - split; [reflexivity|discriminate].
  - split; [reflexivity|].
    intros response Hret. injection Hret as <-.
    exists db, user, tag. auto 10.
Qed.

End MoreAuthentication.

(** ** Rows, once more *)

Lemma largest_snoc (ids : list Z) (i : Z) :
  Forall (fun j => j < i) ids -> sqlite.largest (ids ++ [i])%list = Some i.
Proof.
  induction 1 as [|a l Ha Hl IH]; simpl; [reflexivity|].
  rewrite IH. f_equal. lia.
Qed.

Lemma delete_tea_row_absent (i : Z) (rows : list Tea) :
  ~ In i (map Tea.id rows) -> sqlite.delete_tea_row i rows = rows.
Proof.
  unfold sqlite.delete_tea_row. induction rows as [|r rows IH]; simpl; intros H.
  - reflexivity.
  - destruct (Z.eqb_spec (Tea.id r) i) as [E|Hne]; simpl.
    + exfalso. apply H. now left.
    + rewrite IH by tauto. reflexivity.
Qed.

(** Under unique ids the DELETE removes one row and nothing else. *)
Lemma delete_tea_row_one (i : Z) (rows : list Tea) :
  NoDup (map Tea.id rows) ->
  In i (map Tea.id rows) ->
  exists front old back,
    rows = (front ++ old :: back)%list
    /\ Tea.id old = i
    /\ sqlite.delete_tea_row i rows = (front ++ back)%list.
Proof.
  induction rows as [|r rows IH]; simpl; intros Hnd Hin; [contradiction|].
  inversion Hnd as [|? ? Hfresh Hnd']; subst.
  destruct (Z.eqb_spec (Tea.id r) i) as [E|Hne]; simpl.
  - exists [], r, rows. simpl. repeat split; [exact E|].
    rewrite E in Hfresh. fold (sqlite.delete_tea_row i rows).
    now rewrite delete_tea_row_absent.
  - destruct Hin as [Hin|Hin]; [contradiction|].
    destruct (IH Hnd' Hin) as [front [old [back [Hrows [Hid Hdel]]]]].
    exists (r :: front), old, back. simpl. repeat split.
    + now rewrite Hrows at 1.
    + exact Hid.
    + fold (sqlite.delete_tea_row i rows). now rewrite Hdel.
Qed.

Lemma get_tea_delete_other (i j : Z) (rows : list Tea) :
  j <> i ->
  sqlite.get_tea j (sqlite.delete_tea_row i rows) = sqlite.get_tea j rows.
Proof.
  unfold sqlite.get_tea, sqlite.delete_tea_row. intros Hj.
  induction rows as [|r rows IH]; simpl; [reflexivity|].
  destruct (Z.eqb_spec (Tea.id r) i) as [E|Hne]; simpl.
  - destruct (Z.eqb_spec (Tea.id r) j); [congruence|exact IH].
  - rewrite IH. reflexivity.
Qed.

Lemma delete_appended_row (rows : list Tea) (row : Tea) :
  ~ In (Tea.id row) (map Tea.id rows) ->
  sqlite.delete_tea_row (Tea.id row) (rows ++ [row])%list = rows.
Proof.
  intros Hfresh. unfold sqlite.delete_tea_row. rewrite filter_app. simpl.
  rewrite Z.eqb_refl. simpl. rewrite app_nil_r.
  exact (delete_tea_row_absent (Tea.id row) rows Hfresh).
Qed.

Lemma update_tea_row_twice (first second : Tea) (rows : list Tea) :
  Tea.id first = Tea.id second ->
  sqlite.update_tea_row second (sqlite.update_tea_row first rows)
  = sqlite.update_tea_row second rows.
Proof.
  intros Hid. unfold sqlite.update_tea_row. rewrite map_map.
  apply map_ext. intros r.
  destruct (Z.eqb_spec (Tea.id r) (Tea.id first)) as [E|Hne].
  - rewrite Hid, Z.eqb_refl.
    rewrite <- Hid, E, Z.eqb_refl. reflexivity.
  - rewrite <- Hid. apply Z.eqb_neq in Hne. rewrite Hne. reflexivity.
Qed.

Lemma database_eta (db : Database) :
  {| user_table := user_table db; tea_table := tea_table db |} = db.
Proof. destruct db. reflexivity. Qed.

(** ** Start-up and the tea handlers *)

Section MoreHandlers.

Variable HS256 : string -> jwt.SigningInput -> exn + string.

(** A token accepted on one store is accepted, for the same account, on
    every store with the same user table. *)
Lemma auth_carries_over (now : Z) (credentials : jwt.Token)
    (db db' : Database) (user : User) :
  get_current_user HS256 now credentials (Up db) = (inr user, Up db) ->
  user_table db' = user_table db ->
  get_current_user HS256 now credentials (Up db') = (inr user, Up db').
Proof.
  intros Hauth Husers.
  rewrite (get_current_user_same_users HS256 now credentials db db' Husers).
  rewrite Hauth. reflexivity.
Qed.

(** Every mutating call, whatever its outcome and whatever the table,
    leaves the store reachable and the accounts as they were. *)
Lemma serve_keeps_users (db : Database) (c : Call) :
  exists db', serve HS256 (Up db) c = Up db' /\ user_table db' = user_table db.
Proof.
  unfold serve.
  destruct (auth_cases HS256 (at_time c) (bearer c) (Up db)) as [[e He]|[u Hu]].
  - exists db.
    destruct (request c) as [tea|tea_id tea_update|tea_id];
      [unfold create_tea|unfold update_tea|unfold delete_tea];
      rewrite (auth_refused HS256 _ _ _ e) by (rewrite He; reflexivity);
      simpl; auto.
  - destruct (request c) as [tea|tea_id tea_update|tea_id].
    + destruct (sqlite.new_rowid (tea_ids db)) as [i|] eqn:Hnew.
      * rewrite (create_tea_run HS256 _ tea _ _ _ _ Hu Hnew). simpl. eauto.
      * rewrite (create_tea_full HS256 _ tea _ _ _ Hu Hnew). simpl. eauto.
    + destruct (sqlite.get_tea tea_id (tea_table db)) as [row|] eqn:Hget.
      * rewrite (update_tea_found HS256 _ _ tea_update _ _ _ _ Hu Hget).
        simpl. eauto.
      * destruct (update_tea_unfound HS256 _ _ tea_update _ _ _ Hu Hget)
          as [e' ->].
        simpl. eauto.
    + destruct (sqlite.get_tea tea_id (tea_table db)) as [row|] eqn:Hget.
      * rewrite (delete_tea_found HS256 _ _ _ _ _ _ Hu Hget). simpl. eauto.
      * destruct (delete_tea_unfound HS256 _ _ _ _ _ Hu Hget) as [e' ->].
        simpl. eauto.
Qed.

Lemma serve_all_keeps_users (calls : list Call) (db : Database) :
  exists db',
    serve_all HS256 (Up db) calls = Up db' /\ user_table db' = user_table db.
Proof.
  revert db. induction calls as [|c calls IH]; intros db; simpl.
  - eauto.
  - destruct (serve_keeps_users db c) as [db1 [Hstep Hu1]]. rewrite Hstep.
    destruct (IH db1) as [db' [Hrun Hu]]. exists db'. split; [exact Hrun|].
    congruence.
Qed.

(** X7. On a reachable store [on_startup] always succeeds, never touches
    the tea table and leaves a user table that is not empty.  It adds the
    account admin/password exactly when the user table was empty; a
    store that already has an account, whichever it is, is left as it
    was.  Running it a second time changes nothing. *)
Theorem on_startup_seeds_once (db : Database) :
  exists db',
    on_startup (Up db) = (inr tt, Up db')
    /\ tea_table db' = tea_table db
    /\ user_table db' <> []
    /\ (user_table db = [] ->
        user_table db' = [User.mk 1 "admin" "password"])
    /\ (user_table db <> [] -> db' = db)
    /\ on_startup (Up db') = (inr tt, Up db').
Proof.
  unfold on_startup, bind, Session, commit, ret.
  destruct db as [users teas]. simpl.
  destruct users as [|u users]; simpl.
  - eexists. split; [reflexivity|]. simpl.
    repeat split; try discriminate. intros H. now contradiction H.
  - eexists. split; [reflexivity|]. simpl.
    repeat split; discriminate.
Qed.

(** X8. From a store without accounts to an authenticated request: after
    [on_startup], whatever teas the store holds, logging in as
    admin/password returns a token (the keyed hash returning a tag), and
    until 30 minutes later [get_current_user] resolves that token to the
    seeded account. *)
Theorem first_start_then_login
    (db : Database) (now later : Z) (tag : string) :
  user_table db = [] ->
  HS256 JWT_SECRET_KEY
    (JWT_ALGORITHM, {| jwt.sub := Some "admin"; jwt.exp := Some (now + 1800) |})
    = inr tag ->
  later < now + 1800 ->
  exists db' token,
    on_startup (Up db) = (inr tt, Up db')
    /\ login_for_access_token HS256 now "admin" "password" (Up db')
       = (inr {| access_token := token; token_type := "bearer" |}, Up db')
    /\ get_current_user HS256 later token (Up db')
       = (inr (User.mk 1 "admin" "password"), Up db').
Proof.
  intros Hempty Htag Hlater.
  destruct db as [users teas]. simpl in Hempty. subst users.
  exists {| user_table := [User.mk 1 "admin" "password"]; tea_table := teas |}.
  eexists. split; [reflexivity|]. split.
  - run_handler. unfold jwt.encode. simpl. rewrite Htag. reflexivity.
  - rewrite (get_current_user_decoded HS256 later _ _ _
               (decode_accepts HS256 later _ tag Htag Hlater)).
    reflexivity.
Qed.

(** X9. A mutating request whose token [get_current_user] refuses gets
    that refusal as its answer and changes nothing: this holds for
    create, update and delete alike, in every state of the store. *)
Theorem refused_request_changes_nothing
    (now : Z) (credentials : jwt.Token) (eng : Engine) (e : exn) :
  fst (get_current_user HS256 now credentials eng) = inl e ->
  (forall tea, create_tea HS256 now tea credentials eng = (inl e, eng))
  /\ (forall tea_id tea_update,
        update_tea HS256 now tea_id tea_update credentials eng = (inl e, eng))
  /\ (forall tea_id, delete_tea HS256 now tea_id credentials eng = (inl e, eng)).
Proof.
  intros Hrefused. repeat split; intros.
  - unfold create_tea. now rewrite (auth_refused HS256 _ _ _ e).
  - unfold update_tea. now rewrite (auth_refused HS256 _ _ _ e).
  - unfold delete_tea. now rewrite (auth_refused HS256 _ _ _ e).
Qed.

(** X10. Create followed by delete of the id just assigned is a round
    trip: with a token [get_current_user] accepts and room for one more
    rowid, the store after the two calls is the store before the
    create. *)
Theorem create_then_delete_restores_store
    (now later : Z) (tea : TeaCreate) (credentials : jwt.Token)
    (db : Database) (user : User) :
  get_current_user HS256 now credentials (Up db) = (inr user, Up db) ->
  get_current_user HS256 later credentials (Up db) = (inr user, Up db) ->
  (forall m, sqlite.largest (tea_ids db) = Some m -> m < sqlite.MAX_ROWID) ->
  exists created db1,
    create_tea HS256 now tea credentials (Up db) = (inr created, Up db1)
    /\ delete_tea HS256 later (Tea.id created) credentials (Up db1)
       = (inr {| message :=
                   "Tea with id " ++ str_int (Tea.id created) ++ " deleted" |},
          Up db).
Proof.
  intros Hauth Hlater Hroom.
  destruct (new_rowid_defined (tea_ids db) Hroom) as [i Hnew].
  pose proof (create_tea_run HS256 now tea credentials db user i Hauth Hnew)
    as Hrun. simpl in Hrun.
  set (created := Tea.mk i (TeaCreate.name tea) (TeaCreate.origin tea)) in *.
  set (db1 := {| user_table := user_table db;
                 tea_table := (tea_table db ++ [created])%list |}) in *.
  exists created, db1. split; [exact Hrun|].
  assert (Hfresh : ~ In (Tea.id created) (map Tea.id (tea_table db)))
    by (now apply new_rowid_unused).
  assert (Hauth1 : get_current_user HS256 later credentials (Up db1)
                   = (inr user, Up db1))
    by (apply (auth_carries_over later credentials db db1 user Hlater);
        reflexivity).
  rewrite (delete_tea_found HS256 later (Tea.id created) credentials db1 user
             created Hauth1 (get_tea_appended (tea_table db) created Hfresh)).
  unfold db1. cbn [user_table tea_table].
  rewrite (delete_appended_row (tea_table db) created Hfresh).
  now rewrite database_eta.
Qed.

(** X11. With a token [get_current_user] accepts, [delete_tea] on an id
    present in the tea table removes the rows of that id and nothing
    else: a record is in the table afterwards exactly when it was there
    before under another id, lookups of other ids are unchanged, and the
    accounts are untouched.  Ids being unique, one row goes and the
    others keep their order. *)
Theorem delete_tea_removes_one_record
    (now tea_id : Z) (credentials : jwt.Token) (db : Database) (user : User) :
  get_current_user HS256 now credentials (Up db) = (inr user, Up db) ->
  In tea_id (tea_ids db) ->
  exists db',
    snd (delete_tea HS256 now tea_id credentials (Up db)) = Up db'
    /\ user_table db' = user_table db
    /\ (forall row, In row (tea_table db') <->
                    In row (tea_table db) /\ Tea.id row <> tea_id)
    /\ (forall j, j <> tea_id ->
          sqlite.get_tea j (tea_table db') = sqlite.get_tea j (tea_table db))
    /\ (NoDup (tea_ids db) ->
        exists front old back,
          tea_table db = (front ++ old :: back)%list
          /\ Tea.id old = tea_id
          /\ tea_table db' = (front ++ back)%list).
Proof.
  intros Hauth Hpresent.
  destruct (get_tea_present tea_id (tea_table db) Hpresent) as [row [Hget Hid]].
  rewrite (delete_tea_found HS256 now tea_id credentials db user row Hauth Hget).
  eexists. split; [reflexivity|]. simpl. split; [reflexivity|].
  split; [|split].
  - intros r. unfold sqlite.delete_tea_row. rewrite filter_In.
    rewrite negb_true_iff, Z.eqb_neq. tauto.
  - intros j Hj. now apply get_tea_delete_other.
  - intros Hnd. exact (delete_tea_row_one tea_id (tea_table db) Hnd Hpresent).
Qed.

(** X12. The last update wins: with a token [get_current_user] accepts
    and an id present in the tea table, updating the record twice leaves
    the same store and returns the same record as the second update
    alone.  In particular repeating an update changes nothing more. *)
Theorem update_tea_last_write_wins
    (now later tea_id : Z) (first second : TeaCreate) (credentials : jwt.Token)
    (db : Database) (user : User) :
  get_current_user HS256 now credentials (Up db) = (inr user, Up db) ->
  get_current_user HS256 later credentials (Up db) = (inr user, Up db) ->
  In tea_id (tea_ids db) ->
  update_tea HS256 later tea_id second credentials
    (snd (update_tea HS256 now tea_id first credentials (Up db)))
  = update_tea HS256 later tea_id second credentials (Up db).
Proof.
  intros Hauth Hlater Hpresent.
  destruct (get_tea_present tea_id (tea_table db) Hpresent) as [row [Hget Hid]].
  rewrite (update_tea_found HS256 now tea_id first credentials db user row
             Hauth Hget). simpl.
  set (once := Tea.mk tea_id (TeaCreate.name first) (TeaCreate.origin first)).
  set (db1 := {| user_table := user_table db;
                 tea_table := sqlite.update_tea_row once (tea_table db) |}).
  assert (Hauth1 : get_current_user HS256 later credentials (Up db1)
                   = (inr user, Up db1))
    by (apply (auth_carries_over later credentials db db1 user Hlater);
        reflexivity).
  assert (Hget1 : sqlite.get_tea tea_id (tea_table db1) = Some once)
    by (exact (get_tea_updated once (tea_table db) Hpresent)).
  rewrite (update_tea_found HS256 later tea_id second credentials db1 user once
             Hauth1 Hget1).
  rewrite (update_tea_found HS256 later tea_id second credentials db user row
             Hlater Hget).
  unfold db1. cbn [user_table tea_table].
  rewrite update_tea_row_twice by reflexivity. reflexivity.
Qed.

(** X13. Starting from a tea table in increasing id order, after any
    sequence of create, update and delete requests (any tokens, any
    times, accepted or refused) the store is still reachable, the
    accounts are the ones it had, and [get_teas] returns the records by
    strictly increasing id, so no two listed records share an id. *)
Theorem mutating_calls_keep_table_ordered (calls : list Call) (db : Database) :
  rowid_ordered db ->
  exists db',
    serve_all HS256 (Up db) calls = Up db'
    /\ user_table db' = user_table db
    /\ get_teas (Up db') = (inr (tea_table db'), Up db')
    /\ StronglySorted Z.lt (map Tea.id (tea_table db'))
    /\ NoDup (map Tea.id (tea_table db')).
Proof.
  intros Hord.
  destruct (serve_all_keeps_rowid_order HS256 calls db Hord)
    as [db' [Hrun [Hu [Hord' Hnd]]]].
  exists db'. repeat split; assumption.
Qed.

(** X14. Two creates in a row are given consecutive ids and are listed
    in the order they were made, after the records that were there: with
    a token [get_current_user] accepts, when the first create is given id
    [i] below the largest rowid, the second is given [i + 1]. *)
Theorem consecutive_creates
    (now later : Z) (first second : TeaCreate) (credentials : jwt.Token)
    (db : Database) (user : User) (i : Z) :
  get_current_user HS256 now credentials (Up db) = (inr user, Up db) ->
  get_current_user HS256 later credentials (Up db) = (inr user, Up db) ->
  sqlite.new_rowid (tea_ids db) = Some i ->
  i < sqlite.MAX_ROWID ->
  let one := Tea.mk i (TeaCreate.name first) (TeaCreate.origin first) in
  let two := Tea.mk (i + 1) (TeaCreate.name second) (TeaCreate.origin second) in
  exists db1 db2,
    create_tea HS256 now first credentials (Up db) = (inr one, Up db1)
    /\ create_tea HS256 later second credentials (Up db1) = (inr two, Up db2)
    /\ get_teas (Up db2) = (inr (tea_table db ++ [one; two])%list, Up db2).
Proof.
  intros Hauth Hlater Hnew Hroom one two.
  pose proof (create_tea_run HS256 now first credentials db user i Hauth Hnew)
    as Hrun1. simpl in Hrun1. fold one in Hrun1.
  set (db1 := {| user_table := user_table db;
                 tea_table := (tea_table db ++ [one])%list |}) in *.
  assert (Hauth1 : get_current_user HS256 later credentials (Up db1)
                   = (inr user, Up db1))
    by (apply (auth_carries_over later credentials db db1 user Hlater);
        reflexivity).
  assert (Hnew1 : sqlite.new_rowid (tea_ids db1) = Some (i + 1)).
  { pose proof (new_rowid_above _ _ Hnew) as Habove.
    unfold sqlite.new_rowid, tea_ids, db1, one in *. cbn [tea_table].
    rewrite map_app. cbn [map Tea.id].
    rewrite (largest_snoc _ i Habove).
    apply Z.ltb_lt in Hroom. rewrite Hroom. reflexivity. }
  pose proof (create_tea_run HS256 later second credentials db1 user (i + 1)
                Hauth1 Hnew1) as Hrun2. simpl in Hrun2. fold two in Hrun2.
  eexists. eexists. split; [exact Hrun1|]. split; [exact Hrun2|].
  unfold get_teas, bind, Session, ret. simpl.
  rewrite <- app_assoc. reflexivity.
Qed.

(** X15. Tea requests never touch authentication: a token that
    [get_current_user] resolves to an account is resolved to the same
    account, at the same time, after any sequence of create, update and
    delete requests, whatever their tokens and outcomes. *)
Theorem tea_requests_keep_authentication
    (now : Z) (credentials : jwt.Token) (db : Database) (user : User)
    (calls : list Call) :
  get_current_user HS256 now credentials (Up db) = (inr user, Up db) ->
  exists db',
    serve_all HS256 (Up db) calls = Up db'
    /\ user_table db' = user_table db
    /\ get_current_user HS256 now credentials (Up db') = (inr user, Up db').
Proof.
  intros Hauth.
  destruct (serve_all_keeps_users calls db) as [db' [Hrun Hu]].
  exists db'. split; [exact Hrun|]. split; [exact Hu|].
  exact (auth_carries_over now credentials db db' user Hauth Hu).
Qed.

End MoreHandlers.

(** * Concrete runs *)

(** ** The service from first start to an empty table again *)

Example first_start_seeds_admin :
  on_startup (Up empty_db) = (inr tt, Up seeded_db)
  /\ on_startup (Up seeded_db) = (inr tt, Up seeded_db).
Proof. split; reflexivity. Qed.

Example earl_grey_scenario :
  let login := login_for_access_token demo_HS256 1000 "admin" "password" in
  let T := admin_token 2800 in
  let created :=
    create_tea demo_HS256 1001 (TeaCreate.mk "Earl Grey" "England") T
      (Up seeded_db) in
  let updated :=
    update_tea demo_HS256 1002 1 (TeaCreate.mk "Earl Grey Supreme" "England") T
      (snd created) in
  let deleted := delete_tea demo_HS256 1003 1 T (snd updated) in
  fst (login (Up seeded_db)) = inr {| access_token := T; token_type := "bearer" |}
  /\ fst created = inr (Tea.mk 1 "Earl Grey" "England")
  /\ fst (get_teas (snd created)) = inr [Tea.mk 1 "Earl Grey" "England"]
  /\ fst updated = inr (Tea.mk 1 "Earl Grey Supreme" "England")
  /\ fst deleted = inr {| message := "Tea with id 1 deleted" |}
  /\ fst (get_teas (snd deleted)) = inr [].
Proof. vm_compute. repeat split. Qed.

(** ** Where a claim of the specification fails *)


(** C3 as stated fails: a token that expired at time 0, read at time
    2800, with a tag that does not verify, is refused as an invalid token
    and not as an expired one. *)
Lemma expired_forged_token_is_invalid :
  get_current_user demo_HS256 2800
    (jwt.Compact "HS256" {| jwt.sub := Some "admin"; jwt.exp := Some 0 |} "forged")
    (Up seeded_db)
  = (inl (HTTPException 401 "Invalid token: Signature verification failed"
            WWW_Authenticate_Bearer), Up seeded_db).
Proof. vm_compute. reflexivity. Qed.




(** C8 as stated fails: with the store down, a create request carrying a
    good token is answered 401, and the detail carries the text of the
    store's exception. *)
Lemma store_failure_reported_as_unauthorized :
  respond (fst (create_tea demo_HS256 1000 (TeaCreate.mk "Earl Grey" "England")
                  (admin_token 2800) (Down "unable to open database file")))
  = Error 401 "Authentication error: unable to open database file"
      WWW_Authenticate_Bearer.
Proof. vm_compute. reflexivity. Qed.

(** ** Instances of the theorems *)

Lemma generate_jwt_token_subject_and_expiry_witness :
  generate_jwt_token demo_HS256 1000 {| jwt.sub := Some "admin"; jwt.exp := None |}
    (Up seeded_db)
  = (inr (admin_token 2800), Up seeded_db).
Proof.
  refine (proj1 (generate_jwt_token_subject_and_expiry demo_HS256 1000 "admin"
                   "your-secret-key|HS256|admin|2800" (Up seeded_db) _)).
  reflexivity.
Defined.

Lemma login_then_authenticate_witness :
  exists token,
    login_for_access_token demo_HS256 1000 "admin" "password" (Up seeded_db)
    = (inr {| access_token := token; token_type := "bearer" |}, Up seeded_db)
    /\ get_current_user demo_HS256 1000 token (Up seeded_db)
       = (inr (User.mk 1 "admin" "password"), Up seeded_db).
Proof.
  refine (login_then_authenticate demo_HS256 seeded_db
            (User.mk 1 "admin" "password") 1000 1000
            "your-secret-key|HS256|admin|2800" _ _ _ _).
  - simpl. left. reflexivity.
  - simpl. constructor; [simpl; tauto|constructor].
  - reflexivity.
  - vm_compute. reflexivity.
Defined.

Lemma expired_token_rejected_witness :
  get_current_user demo_HS256 2800 (admin_token 2800) (Up seeded_db)
  = (inl (HTTPException 401 "Token has expired" WWW_Authenticate_Bearer),
     Up seeded_db).
Proof.
  refine (proj1 (expired_token_rejected demo_HS256 2800 2800
                   {| jwt.sub := Some "admin"; jwt.exp := Some 2800 |}
                   "your-secret-key|HS256|admin|2800" (Up seeded_db) _ _ _)).
  - reflexivity.
  - reflexivity.
  - lia.
Defined.




Lemma update_tea_changes_one_record_witness :
  exists db',
    update_tea demo_HS256 1000 2 (TeaCreate.mk "Assam Gold" "India")
      (admin_token 2800) (Up stocked_db)
    = (inr (Tea.mk 2 "Assam Gold" "India"), Up db')
    /\ exists front old back,
         tea_table stocked_db = (front ++ old :: back)%list
         /\ Tea.id old = 2
         /\ tea_table db' = (front ++ Tea.mk 2 "Assam Gold" "India" :: back)%list.
Proof.
  destruct (update_tea_changes_one_record demo_HS256 1000 2
              (TeaCreate.mk "Assam Gold" "India") (admin_token 2800) stocked_db
              (User.mk 1 "admin" "password"))
    as [db' [Hrun [_ [_ [_ [_ [_ Hone]]]]]]].
  - reflexivity.
  - simpl. right. left. reflexivity.
  - exists db'. split; [exact Hrun|]. apply Hone.
    apply increasing_nodup. unfold tea_ids. simpl.
    repeat constructor; lia.
Defined.


Lemma login_rejects_bad_credentials_witness :
  login_for_access_token failing_HS256 1000 "admin" "letmein" (Up seeded_db)
  = (inl (HTTPException 401 "Incorrect username or password"
            WWW_Authenticate_Bearer), Up seeded_db)
  /\ login_for_access_token demo_HS256 1000 "nobody" "password" (Up seeded_db)
     = (inl (HTTPException 401 "Incorrect username or password"
               WWW_Authenticate_Bearer), Up seeded_db).
Proof.
  split.
  - refine (proj1 (login_rejects_bad_credentials failing_HS256 1000 "admin"
                     "letmein" seeded_db _)).
    right. exists (User.mk 1 "admin" "password"). split; [reflexivity|].
    simpl. discriminate.
  - refine (proj1 (login_rejects_bad_credentials demo_HS256 1000 "nobody"
                     "password" seeded_db _)).
    left. simpl. intros [H|H]; [discriminate H|exact H].
Defined.

Lemma failures_of_store_and_signer_witness :
  login_for_access_token failing_HS256 1000 "admin" "password" (Up seeded_db)
  = (inl (PyException "RuntimeError" "digest backend unavailable"), Up seeded_db)
  /\ respond (fst (login_for_access_token failing_HS256 1000 "admin" "password"
                     (Up seeded_db)))
     = Error 500 "Internal Server Error" []
  /\ get_current_user demo_HS256 1000 (admin_token 2800)
       (Down "unable to open database file")
     = (inl (HTTPException 401
               "Authentication error: unable to open database file"
               WWW_Authenticate_Bearer), Down "unable to open database file").
Proof.
  destruct (failures_of_store_and_signer failing_HS256) as [_ [Hsign _]].
  destruct (failures_of_store_and_signer demo_HS256) as [_ [_ Hrefused]].
  destruct (Hsign 1000 seeded_db (User.mk 1 "admin" "password")
              (PyException "RuntimeError" "digest backend unavailable"))
    as [Hrun Hresp].
  - reflexivity.
  - reflexivity.
  - discriminate.
  - split; [exact Hrun|]. split; [exact Hresp|].
    refine (proj1 (Hrefused 1000 {| jwt.sub := Some "admin"; jwt.exp := Some 2800 |}
                     "your-secret-key|HS256|admin|2800" "admin"
                     "unable to open database file" _ _ _)).
    + reflexivity.
    + unfold unexpired; simpl; lia.
    + reflexivity.
Defined.

(** ** Instances of the further properties *)

Lemma get_current_user_sound_witness :
  exists db claims signature,
    Up seeded_db = Up db
    /\ admin_token 2800 = jwt.Compact JWT_ALGORITHM claims signature
    /\ demo_HS256 JWT_SECRET_KEY (JWT_ALGORITHM, claims) = inr signature
    /\ unexpired 1000 claims
    /\ jwt.sub claims = Some "admin"
    /\ In (User.mk 1 "admin" "password") (user_table db).
Proof.
  refine (get_current_user_sound demo_HS256 1000 (admin_token 2800)
            (Up seeded_db) (User.mk 1 "admin" "password") _).
  reflexivity.
Defined.


Lemma issued_token_validity_window_witness :
  exists token,
    login_for_access_token demo_HS256 1000 "admin" "password" (Up seeded_db)
    = (inr {| access_token := token; token_type := "bearer" |}, Up seeded_db)
    /\ get_current_user demo_HS256 2799 token (Up seeded_db)
       = (inr (User.mk 1 "admin" "password"), Up seeded_db)
    /\ get_current_user demo_HS256 2800 token (Up seeded_db)
       = (inl (HTTPException 401 "Token has expired" WWW_Authenticate_Bearer),
          Up seeded_db).
Proof.
  destruct (issued_token_validity_window demo_HS256 seeded_db
              (User.mk 1 "admin" "password") 1000
              "your-secret-key|HS256|admin|2800")
    as [token [Hlogin [Hbefore Hafter]]].
  - simpl. left. reflexivity.
  - simpl. constructor; [simpl; tauto|constructor].
  - reflexivity.
  - exists token. split; [exact Hlogin|]. split.
    + apply Hbefore. lia.
    + apply Hafter. lia.
Defined.

Lemma token_without_expiry_never_expires_witness :
  get_current_user demo_HS256 4102444800
    (jwt.Compact JWT_ALGORITHM {| jwt.sub := Some "admin"; jwt.exp := None |}
       "your-secret-key|HS256|admin|")
    (Up seeded_db)
  = (inr (User.mk 1 "admin" "password"), Up seeded_db).
Proof.
  refine (token_without_expiry_never_expires demo_HS256 seeded_db
            (User.mk 1 "admin" "password") "your-secret-key|HS256|admin|"
            _ _ 4102444800).
  - reflexivity.
  - reflexivity.
Defined.

Lemma login_sound_witness :
  exists db user tag,
    Up seeded_db = Up db
    /\ In user (user_table db)
    /\ User.username user = "admin"
    /\ User.password user = "password"
    /\ demo_HS256 JWT_SECRET_KEY
         (JWT_ALGORITHM,
          {| jwt.sub := Some "admin"; jwt.exp := Some (1000 + 1800) |})
       = inr tag
    /\ {| access_token := admin_token 2800; token_type := "bearer" |}
       = {| access_token :=
              jwt.Compact JWT_ALGORITHM
                {| jwt.sub := Some "admin"; jwt.exp := Some (1000 + 1800) |} tag;
            token_type := "bearer" |}.
Proof.
  refine (proj2 (login_sound demo_HS256 1000 "admin" "password" (Up seeded_db))
            {| access_token := admin_token 2800; token_type := "bearer" |} _).
  reflexivity.
Defined.

Lemma on_startup_seeds_once_witness :
  exists db',
    on_startup (Up {| user_table := []; tea_table := tea_table stocked_db |})
      = (inr tt, Up db')
    /\ user_table db' = [User.mk 1 "admin" "password"]
    /\ on_startup (Up db') = (inr tt, Up db').
Proof.
  destruct (on_startup_seeds_once
              {| user_table := []; tea_table := tea_table stocked_db |})
    as [db' [Hrun [_ [_ [Hseed [_ Hagain]]]]]].
  exists db'. split; [exact Hrun|]. split; [|exact Hagain].
  apply Hseed. reflexivity.
Defined.

Lemma first_start_then_login_witness :
  exists db' token,
    on_startup (Up empty_db) = (inr tt, Up db')
    /\ login_for_access_token demo_HS256 1000 "admin" "password" (Up db')
       = (inr {| access_token := token; token_type := "bearer" |}, Up db')
    /\ get_current_user demo_HS256 1000 token (Up db')
       = (inr (User.mk 1 "admin" "password"), Up db').
Proof.
  refine (first_start_then_login demo_HS256 empty_db 1000 1000
            "your-secret-key|HS256|admin|2800" _ _ _).
  - reflexivity.
  - reflexivity.
  - lia.
Defined.

Lemma refused_request_changes_nothing_witness :
  create_tea demo_HS256 1000 (TeaCreate.mk "Oolong" "Taiwan")
    (jwt.Opaque "not-a-token" "") (Up stocked_db)
  = (inl (HTTPException 401 "Invalid token: Not enough segments"
            WWW_Authenticate_Bearer), Up stocked_db).
Proof.
  refine (proj1 (refused_request_changes_nothing demo_HS256 1000
                   (jwt.Opaque "not-a-token" "") (Up stocked_db)
                   (HTTPException 401 "Invalid token: Not enough segments"
                      WWW_Authenticate_Bearer) _)
            (TeaCreate.mk "Oolong" "Taiwan")).
  reflexivity.
Defined.

Lemma create_then_delete_restores_store_witness :
  exists created db1,
    create_tea demo_HS256 1000 (TeaCreate.mk "Oolong" "Taiwan")
      (admin_token 2800) (Up stocked_db) = (inr created, Up db1)
    /\ delete_tea demo_HS256 1005 (Tea.id created) (admin_token 2800) (Up db1)
       = (inr {| message :=
                   "Tea with id " ++ str_int (Tea.id created) ++ " deleted" |},
          Up stocked_db).
Proof.
  refine (create_then_delete_restores_store demo_HS256 1000 1005
            (TeaCreate.mk "Oolong" "Taiwan") (admin_token 2800) stocked_db
            (User.mk 1 "admin" "password") _ _ _).
  - reflexivity.
  - reflexivity.
  - intros m Hm. vm_compute in Hm. injection Hm as <-. reflexivity.
Defined.

Lemma delete_tea_removes_one_record_witness :
  exists db',
    snd (delete_tea demo_HS256 1000 2 (admin_token 2800) (Up stocked_db)) = Up db'
    /\ exists front old back,
         tea_table stocked_db = (front ++ old :: back)%list
         /\ Tea.id old = 2
         /\ tea_table db' = (front ++ back)%list.
Proof.
  destruct (delete_tea_removes_one_record demo_HS256 1000 2 (admin_token 2800)
              stocked_db (User.mk 1 "admin" "password"))
    as [db' [Hrun [_ [_ [_ Hone]]]]].
  - reflexivity.
  - simpl. right. left. reflexivity.
  - exists db'. split; [exact Hrun|]. apply Hone.
    apply increasing_nodup. unfold tea_ids. simpl.
    repeat constructor; lia.
Defined.

Lemma update_tea_last_write_wins_witness :
  update_tea demo_HS256 1005 2 (TeaCreate.mk "Assam Gold" "India")
    (admin_token 2800)
    (snd (update_tea demo_HS256 1000 2 (TeaCreate.mk "Asam" "Indai")
            (admin_token 2800) (Up stocked_db)))
  = update_tea demo_HS256 1005 2 (TeaCreate.mk "Assam Gold" "India")
      (admin_token 2800) (Up stocked_db).
Proof.
  refine (update_tea_last_write_wins demo_HS256 1000 1005 2
            (TeaCreate.mk "Asam" "Indai") (TeaCreate.mk "Assam Gold" "India")
            (admin_token 2800) stocked_db (User.mk 1 "admin" "password") _ _ _).
  - reflexivity.
  - reflexivity.
  - simpl. right. left. reflexivity.
Defined.

Lemma mutating_calls_keep_table_ordered_witness :
  exists db',
    serve_all demo_HS256 (Up stocked_db)
      [ {| at_time := 1000; bearer := admin_token 2800; request := Delete 5 |};
        {| at_time := 1001; bearer := admin_token 2800;
           request := Create (TeaCreate.mk "Oolong" "Taiwan") |};
        {| at_time := 1002; bearer := jwt.Opaque "not-a-token" "";
           request := Delete 1 |} ]
    = Up db'
    /\ user_table db' = user_table stocked_db
    /\ get_teas (Up db') = (inr (tea_table db'), Up db')
    /\ StronglySorted Z.lt (map Tea.id (tea_table db'))
    /\ NoDup (map Tea.id (tea_table db')).
Proof.
  refine (mutating_calls_keep_table_ordered demo_HS256 _ stocked_db _).
  unfold rowid_ordered, tea_ids. simpl. repeat constructor; lia.
Defined.

Lemma consecutive_creates_witness :
  exists db1 db2,
    create_tea demo_HS256 1000 (TeaCreate.mk "Oolong" "Taiwan")
      (admin_token 2800) (Up stocked_db)
    = (inr (Tea.mk 6 "Oolong" "Taiwan"), Up db1)
    /\ create_tea demo_HS256 1005 (TeaCreate.mk "Matcha" "Japan")
         (admin_token 2800) (Up db1)
       = (inr (Tea.mk (6 + 1) "Matcha" "Japan"), Up db2)
    /\ get_teas (Up db2)
       = (inr (tea_table stocked_db
               ++ [Tea.mk 6 "Oolong" "Taiwan"; Tea.mk (6 + 1) "Matcha" "Japan"])%list,
          Up db2).
Proof.
  refine (consecutive_creates demo_HS256 1000 1005
            (TeaCreate.mk "Oolong" "Taiwan") (TeaCreate.mk "Matcha" "Japan")
            (admin_token 2800) stocked_db (User.mk 1 "admin" "password") 6
            _ _ _ _).
  - reflexivity.
  - reflexivity.
  - reflexivity.
  - reflexivity.
Defined.

Lemma tea_requests_keep_authentication_witness :
  exists db',
    serve_all demo_HS256 (Up stocked_db)
      [ {| at_time := 1000; bearer := admin_token 2800; request := Delete 5 |};
        {| at_time := 1001; bearer := admin_token 2800;
           request := Update 1 (TeaCreate.mk "Earl Grey Supreme" "England") |} ]
    = Up db'
    /\ user_table db' = user_table stocked_db
    /\ get_current_user demo_HS256 1002 (admin_token 2800) (Up db')
       = (inr (User.mk 1 "admin" "password"), Up db').
Proof.
  refine (tea_requests_keep_authentication demo_HS256 1002 (admin_token 2800)
            stocked_db (User.mk 1 "admin" "password") _ _).
  reflexivity.
Defined.
